(** * family_letter_crawler: the listing extractor [crawl_school_letters]

    A shallow embedding of [src/family_letter_crawler.py] and the
    properties of its result envelope.

    Modelling conventions.
    - A Python [str] is a [str]: a list of Unicode code points. Its length
      and its slices count code points.
    - The character classes of the Unicode database that the module relies
      on, the decimal digits of [\d] and the whitespace of [str.strip], are
      fixed on ASCII and a parameter ([Unicode]) beyond it: every theorem
      holds for whatever the database of the interpreter says there.
    - The parse tree built by BeautifulSoup is a [node]: text nodes and
      elements with a tag name, an attribute list and ordered children.
    - The collaborators that are not part of the module (the HTTP client,
      the HTML parser, [urljoin], [prettify], the clock) are the fields of
      a [World]; each may raise.
    - Exceptions and the log file are threaded through a state-and-error
      monad [M]: the log survives a raise, as a file does. Only exceptions
      deriving from [Exception] are modelled. *)

From Stdlib Require Import String Ascii List Bool Arith NArith Lia.
Import ListNotations.
Set Warnings "-register-all".
Open Scope list_scope.
Open Scope nat_scope.

(* ================================================================== *)
(** ** Characters and texts *)

(** A Unicode code point. *)
Definition char : Type := N.

(** A Python [str]. *)
Definition str : Type := list char.

(** The [str] that a literal of the source denotes: the UTF-8 text of the
    literal, decoded to code points. *)
Fixpoint lit (s : string) : str :=
  match s with
  | EmptyString => []
  | String b0 s1 =>
      let n0 := N_of_ascii b0 in
      if (n0 <? 128)%N then n0 :: lit s1
      else if (n0 <? 224)%N then
        match s1 with
        | String b1 s2 =>
            ((n0 - 192) * 64 + (N_of_ascii b1 - 128))%N :: lit s2
        | _ => []
        end
      else if (n0 <? 240)%N then
        match s1 with
        | String b1 (String b2 s3) =>
            ((n0 - 224) * 4096 + (N_of_ascii b1 - 128) * 64
             + (N_of_ascii b2 - 128))%N :: lit s3
        | _ => []
        end
      else
        match s1 with
        | String b1 (String b2 (String b3 s4)) =>
            ((n0 - 240) * 262144 + (N_of_ascii b1 - 128) * 4096
             + (N_of_ascii b2 - 128) * 64 + (N_of_ascii b3 - 128))%N :: lit s4
        | _ => []
        end
  end.

Arguments lit : simpl never.

(* Two occurrences of a literal are compared as they are written; the
   decoder runs only where a literal meets another text. *)
Strategy opaque [lit].

(** A code point by the ASCII character that stands for it. *)
Definition chr (c : ascii) : char := N_of_ascii c.

(** The character classes of the Unicode database above U+007F: the
    decimal digits (category Nd, what [\d] matches) and the whitespace
    (what [str.isspace] accepts, so what [str.strip] and [\S] go by). *)
Record Unicode : Type := mk_unicode {
  decimal_beyond_ascii : char -> bool;
  space_beyond_ascii : char -> bool
}.

(* ================================================================== *)
(** ** Strings *)

Module Str.

(** [\d] on a [str] pattern: the ASCII digits, and beyond ASCII the
    decimal digits of the database. *)
Definition is_digit (U : Unicode) (c : char) : bool :=
  if (c <? 128)%N then ((48 <=? c) && (c <=? 57))%N
  else decimal_beyond_ascii U c.

(** [str.isspace] on one character: tab to carriage return, the four
    separators U+001C to U+001F and the space, and beyond ASCII the
    whitespace of the database. *)
Definition is_space (U : Unicode) (c : char) : bool :=
  if (c <? 128)%N
  then (((9 <=? c) && (c <=? 13)) || ((28 <=? c) && (c <=? 32)))%N
  else space_beyond_ascii U c.

Definition is_quote (c : char) : bool :=
  (c =? chr "'")%N || (c =? 34)%N.

(** [a == b] *)
Fixpoint eqb (a b : str) : bool :=
  match a, b with
  | [], [] => true
  | x :: a', y :: b' => (x =? y)%N && eqb a' b'
  | _, _ => false
  end.

(** [s.startswith(p)] *)
Fixpoint startswith (p s : str) : bool :=
  match p, s with
  | [], _ => true
  | x :: p', y :: s' => (x =? y)%N && startswith p' s'
  | _ :: _, [] => false
  end.

Fixpoint lstrip (U : Unicode) (s : str) : str :=
  match s with
  | c :: s' => if is_space U c then lstrip U s' else s
  | [] => []
  end.

Fixpoint rstrip (U : Unicode) (s : str) : str :=
  match s with
  | c :: s' =>
      match rstrip U s' with
      | [] => if is_space U c then [] else [c]
      | r => c :: r
      end
  | [] => []
  end.

(** [s.strip()] *)
Definition strip (U : Unicode) (s : str) : str := rstrip U (lstrip U s).

(** [s.replace('.', '-')] *)
Fixpoint replace_dot_dash (s : str) : str :=
  match s with
  | c :: s' =>
      (if (c =? chr ".")%N then chr "-" else c) :: replace_dot_dash s'
  | [] => []
  end.

(** Python truthiness of a [str]. *)
Definition truthy (s : str) : bool :=
  match s with [] => false | _ => true end.

(** The longest prefix of digits, and what follows it. *)
Fixpoint span_digits (U : Unicode) (s : str) : str * str :=
  match s with
  | c :: s' =>
      if is_digit U c
      then let (d, r) := span_digits U s' in (c :: d, r)
      else ([], s)
  | [] => ([], [])
  end.

(** The longest prefix without a slash: the greedy [[^/]+] when non-empty. *)
Fixpoint span_not_slash (s : str) : str :=
  match s with
  | c :: s' =>
      if (c =? chr "/")%N then [] else c :: span_not_slash s'
  | [] => []
  end.

Definition drop_prefix (p s : str) : option str :=
  if startswith p s then Some (skipn (List.length p) s) else None.

End Str.

(* ================================================================== *)
(** ** The regular expressions of the module *)

Module Re.
Import Str.

(** [\d{4}\.\d{2}\.\d{2}] anchored at the start of [s] ([re.match]);
    the result is the matched text. *)
Definition match_date (U : Unicode) (s : str) : option str :=
  match s with
  | y1 :: y2 :: y3 :: y4 :: p1 :: m1 :: m2 :: p2 :: d1 :: d2 :: _ =>
      if is_digit U y1 && is_digit U y2 && is_digit U y3 && is_digit U y4
         && (p1 =? chr ".")%N && is_digit U m1 && is_digit U m2
         && (p2 =? chr ".")%N && is_digit U d1 && is_digit U d2
      then Some [y1; y2; y3; y4; p1; m1; m2; p2; d1; d2]
      else None
  | _ => None
  end.

(** [re.search(r'(\d{4}\.\d{2}\.\d{2})', s)]: group 1 of the leftmost
    match. *)
Fixpoint search_date (U : Unicode) (s : str) : option str :=
  match match_date U s with
  | Some d => Some d
  | None =>
      match s with
      | _ :: s' => search_date U s'
      | [] => None
      end
  end.

(** [['\"](\d+)['\"]] anchored at the start of [s]; the result is group 1.
    The digits are matched greedily; a shorter run is followed by a digit,
    never by a quote, so backtracking adds no match. *)
Definition match_quoted_digits (U : Unicode) (s : str) : option str :=
  match s with
  | q :: s' =>
      if is_quote q then
        match span_digits U s' with
        | (d :: ds, q' :: _) =>
            if is_quote q' then Some (d :: ds) else None
        | _ => None
        end
      else None
  | [] => None
  end.

(** [re.search(r"['\"](\d+)['\"]", s)]: group 1 of the leftmost match. *)
Fixpoint search_quoted_digits (U : Unicode) (s : str) : option str :=
  match match_quoted_digits U s with
  | Some d => Some d
  | None =>
      match s with
      | _ :: s' => search_quoted_digits U s'
      | [] => None
      end
  end.

(** [https?://(?:www\.)?([^/]+)] anchored at the start of [s]; the result
    is group 1. When nothing but [www.] precedes the next slash the
    optional group gives its text back to group 1. *)
Definition match_site (s : str) : option str :=
  match drop_prefix (lit "http") s with
  | None => None
  | Some r0 =>
      let r1 := match drop_prefix (lit "s") r0 with Some r => r | None => r0 end in
      let try_rest (r : str) : option str :=
        match drop_prefix (lit "://") r with
        | None => None
        | Some h =>
            let with_www :=
              match drop_prefix (lit "www.") h with
              | Some h' =>
                  match span_not_slash h' with
                  | [] => None
                  | g => Some g
                  end
              | None => None
              end in
            match with_www with
            | Some g => Some g
            | None =>
                match span_not_slash h with
                | [] => None
                | g => Some g
                end
            end
        end in
      match try_rest r1 with
      | Some g => Some g
      | None => try_rest r0
      end
  end.

(** [re.search(r'https?://(?:www\.)?([^/]+)', s)]: group 1 of the
    leftmost match. *)
Fixpoint search_site (s : str) : option str :=
  match match_site s with
  | Some g => Some g
  | None =>
      match s with
      | _ :: s' => search_site s'
      | [] => None
      end
  end.

End Re.

(* ================================================================== *)
(** ** The parse tree *)

Module Html.
Import Str.

(** A tag's attribute dictionary, as an association list. *)
Definition attrs := list (str * str).

Inductive node : Type :=
| Text (s : str)
| Elem (name : str) (a : attrs) (children : list node).

(** [tag.get(key, '')] *)
Fixpoint get (key : str) (a : attrs) : str :=
  match a with
  | (k, v) :: a' => if eqb k key then v else get key a'
  | [] => []
  end.

Definition node_get (key : str) (n : node) : str :=
  match n with
  | Elem _ a _ => get key a
  | Text _ => []
  end.

(** The whitespace-separated tokens of a multi-valued attribute. *)
Fixpoint words_aux (U : Unicode) (cur : str) (s : str) : list str :=
  let flush (k : list str) :=
    match cur with [] => k | _ => cur :: k end in
  match s with
  | c :: s' =>
      if is_space U c then flush (words_aux U [] s')
      else words_aux U (cur ++ [c]) s'
  | [] => flush []
  end.

Definition words (U : Unicode) (s : str) : list str := words_aux U [] s.

Definition has_class (U : Unicode) (c : str) (a : attrs) : bool :=
  existsb (eqb c) (words U (get (lit "class") a)).

Definition is_tag (t : str) (n : node) : bool :=
  match n with
  | Elem name _ _ => eqb name t
  | Text _ => false
  end.

Definition is_tag_class (U : Unicode) (t c : str) (n : node) : bool :=
  match n with
  | Elem name a _ => eqb name t && has_class U c a
  | Text _ => false
  end.

Definition has_id (i : str) (n : node) : bool :=
  match n with
  | Elem _ a _ => eqb (get (lit "id") a) i
  | Text _ => false
  end.

(** Every node below [n] in document order, each with the chain of its
    ancestors, nearest first, starting from [anc]. *)
Fixpoint descendants_anc (anc : list node) (n : node) : list (list node * node) :=
  match n with
  | Text _ => []
  | Elem _ _ cs =>
      (fix walk (l : list node) : list (list node * node) :=
         match l with
         | c :: l' => (n :: anc, c) :: descendants_anc (n :: anc) c ++ walk l'
         | [] => []
         end) cs
  end.

Definition descendants (n : node) : list node :=
  map snd (descendants_anc [] n).

(** [n.find_all(...)] with a predicate on the element. *)
Definition find_all_by (p : node -> bool) (n : node) : list node :=
  filter p (descendants n).

(** [n.find(...)]: the first match, or [None]. *)
Definition find_by (p : node -> bool) (n : node) : option node :=
  hd_error (find_all_by p n).

Definition find_all (t : str) : node -> list node := find_all_by (is_tag t).
Definition find (t : str) : node -> option node := find_by (is_tag t).
Definition find_class (U : Unicode) (t c : str) : node -> option node :=
  find_by (is_tag_class U t c).
Definition find_id (i : str) : node -> option node := find_by (has_id i).

(** [n.get_text(strip=True)]: the text nodes below [n], each stripped,
    the empty ones left out, joined without a separator. *)
Definition get_text_strip (U : Unicode) (n : node) : str :=
  concat
    (filter truthy
       (flat_map (fun d => match d with Text s => [strip U s] | Elem _ _ _ => [] end)
                 (descendants n))).

(** [soup.select_one('#subContent > div > div.BD_list > table > tbody')]:
    the first [tbody] in document order whose parent is a [table], whose
    parent is a [div] of class [BD_list], whose parent is a [div], whose
    parent has the id [subContent]. *)
Definition bd_list_path (U : Unicode) (x : list node * node) : bool :=
  match x with
  | (table :: bd :: div :: sub :: _, tb) =>
      is_tag (lit "tbody") tb && is_tag (lit "table") table
      && is_tag_class U (lit "div") (lit "BD_list") bd && is_tag (lit "div") div
      && has_id (lit "subContent") sub
  | _ => false
  end.

Definition select_one_bd_list (U : Unicode) (soup : node) : option node :=
  option_map snd (hd_error (filter (bd_list_path U) (descendants_anc [] soup))).

End Html.

(* ================================================================== *)
(** ** Exceptions and the log *)

Module Py.

(** The two kinds of exception the module's handlers tell apart:
    [except requests.RequestException] catches the first only,
    [except Exception] catches both. *)
Inductive exn_class : Type := RequestException | OtherException.

Record exn : Type := mk_exn { exn_kind : exn_class; exn_str : str }.

Inductive result (A : Type) : Type :=
| Ok (a : A)
| Raise (e : exn).
Arguments Ok {A} a.
Arguments Raise {A} e.

Inductive level : Type := DEBUG | INFO | WARNING | ERROR.

Definition level_no (l : level) : nat :=
  match l with DEBUG => 10 | INFO => 20 | WARNING => 30 | ERROR => 40 end.

(** The messages of the module, by the values they are formatted from. *)
Inductive message : Type :=
| CrawlerStart (site_name : str)
| RequestError (e : str)
| TableNotFound (debug_html : str)
| DateFoundAt (idx : nat) (date_text : str)
| DateNotFound (cell_texts : list str)
| RowParseError (e : str)
| CrawlDone (count : nat)
| HtmlParseError (e : str).

Record log_record : Type := mk_record { rec_level : level; rec_msg : message }.

(** The log file: the records written so far, oldest first. *)
Definition log := list log_record.

(** A computation reads and extends the log and returns or raises. *)
Definition M (A : Type) : Type := log -> result A * log.

Definition ret {A} (a : A) : M A := fun l => (Ok a, l).

Definition bind {A B} (c : M A) (k : A -> M B) : M B :=
  fun l =>
    match c l with
    | (Ok a, l') => k a l'
    | (Raise e, l') => (Raise e, l')
    end.

Definition raise {A} (e : exn) : M A := fun l => (Raise e, l).

Definition lift {A} (r : result A) : M A := fun l => (r, l).

(** [logging.basicConfig(level=logging.INFO)]: a record below [INFO] is
    not written. *)
Definition logging (lv : level) (m : message) : M unit :=
  fun l =>
    if level_no INFO <=? level_no lv
    then (Ok tt, l ++ [mk_record lv m])
    else (Ok tt, l).

(** [try: body  except <classes> as e: handler e]; the handler runs for
    an exception whose kind [catches] accepts, any other propagates. *)
Definition try_except {A} (catches : exn_class -> bool)
           (body : M A) (handler : exn -> M A) : M A :=
  fun l =>
    match body l with
    | (Ok a, l') => (Ok a, l')
    | (Raise e, l') =>
        if catches (exn_kind e) then handler e l' else (Raise e, l')
    end.

Definition except_RequestException (k : exn_class) : bool :=
  match k with RequestException => true | OtherException => false end.

Definition except_Exception (k : exn_class) : bool := true.

(** [xs[i]]; out of range is an [IndexError]. *)
Definition index {A} (xs : list A) (i : nat) : M A :=
  match nth_error xs i with
  | Some x => ret x
  | None => raise (mk_exn OtherException (lit "list index out of range"))
  end.

End Py.

Declare Scope py_scope.
Delimit Scope py_scope with py.
Notation "x <- c ;; k" := (Py.bind c (fun x => k))
  (at level 61, c at next level, right associativity) : py_scope.
Notation "c ;;; k" := (Py.bind c (fun _ => k))
  (at level 61, right associativity) : py_scope.

(* ================================================================== *)
(** ** The result envelope *)

(** One entry of [letters]: the dict [letter_data]. *)
Record letter : Type := mk_letter {
  number : str;
  title : str;
  author : str;
  date : str;
  views : str;
  url : str;
  has_attachment : bool
}.

(** The dict under ["meta"]; [error] is [None] when the key is absent. *)
Record meta_info : Type := mk_meta {
  total_count : nat;
  last_updated : str;
  source : str;
  meta_url : str;
  error : option str
}.

(** The dict returned by [crawl_school_letters]. *)
Record envelope : Type := mk_envelope {
  letters : list letter;
  meta : meta_info
}.

(* ================================================================== *)
(** ** The collaborators *)

(** What the module calls and does not define. A call returns or raises. *)
Record World : Type := mk_world {
  (** The character classes of the interpreter's Unicode database. *)
  unicode : Unicode;
  (** [requests.get(url, headers=..., timeout=10)] followed by
      [raise_for_status()]; the value is the response, by its [text]. *)
  requests_get : str -> Py.result str;
  (** [BeautifulSoup(response.text, 'html.parser')] *)
  html_parser : str -> Py.result Html.node;
  (** [urljoin(base, link)] *)
  urljoin : str -> str -> Py.result str;
  (** [soup.prettify()] *)
  prettify : Html.node -> Py.result str;
  (** [datetime.now().strftime("%Y-%m-%d")] *)
  today : str
}.

(* ================================================================== *)
(** ** The crawler *)

Section Crawler.
Import Str Re Html Py.
Local Open Scope py_scope.

Variable W : World.

(** The two markers of a pinned row. *)
Definition notice_marker : str := Eval vm_compute in lit "공지".
Definition integrated_notice_marker : str := Eval vm_compute in lit "통합공지".

(** The detail-page address the module builds around [ntt_sn]. *)
Definition detail_link (ntt_sn : str) : str :=
  lit "/ocheonhs/na/ntt/selectNttView.do?mi=159125&bbsId=76556&nttSn=" ++ ntt_sn.

(** [if not site_name: ...] (lines 43-49) *)
Definition resolve_site_name (url : str) (site_name : option str) : str :=
  match site_name with
  | Some (c :: s) => c :: s
  | _ =>
      match search_site url with
      | Some g => g
      | None => lit "unknown_site"
      end
  end.

(** The [error] texts of lines 133 and 267. *)
Definition table_not_found_msg : str :=
  Eval vm_compute in lit "가정통신문 테이블을 찾을 수 없습니다.".
Definition parse_error_msg (e : exn) : str :=
  lit "HTML 파싱 오류: " ++ exn_str e.

(** The envelope of a failed call (lines 64-73, 126-135, 260-269). *)
Definition failure (site_name url msg : str) : envelope :=
  {| letters := [];
     meta := {| total_count := 0;
                last_updated := today W;
                source := site_name;
                meta_url := url;
                error := Some msg |} |}.

(** *** Locating the table body (lines 81-120) *)

Definition or_else {A} (a : option A) (b : option A) : option A :=
  match a with Some _ => a | None => b end.

(** Method 1 *)
Definition tbody_by_selector (soup : node) : option node :=
  select_one_bd_list (unicode W) soup.

(** Method 2 *)
Definition tbody_by_steps (soup : node) : option node :=
  match find_id (lit "subContent") soup with
  | Some sub_content =>
      match find (lit "div") sub_content with
      | Some div =>
          match find_class (unicode W) (lit "div") (lit "BD_list") div with
          | Some bd_list =>
              match find (lit "table") bd_list with
              | Some table => find (lit "tbody") table
              | None => None
              end
          | None => None
          end
      | None => None
      end
  | None => None
  end.

(** Method 3 *)
Definition tbody_by_class (soup : node) : option node :=
  match find_class (unicode W) (lit "div") (lit "BD_list") soup with
  | Some bd_list =>
      match find (lit "table") bd_list with
      | Some table => find (lit "tbody") table
      | None => None
      end
  | None => None
  end.

(** Method 4: the [for ... else] over every table. *)
Fixpoint tbody_by_scan (tables : list node) : option node :=
  match tables with
  | table :: rest =>
      match find (lit "tbody") table with
      | Some tbody =>
          match find_all (lit "tr") tbody with
          | first_row :: _ =>
              match find_all (lit "td") first_row with
              | _ :: _ => Some tbody
              | [] => tbody_by_scan rest
              end
          | [] => tbody_by_scan rest
          end
      | None => tbody_by_scan rest
      end
  | [] => None
  end.

Definition find_tbody (soup : node) : option node :=
  or_else (tbody_by_selector soup)
    (or_else (tbody_by_steps soup)
       (or_else (tbody_by_class soup)
          (tbody_by_scan (find_all (lit "table") soup)))).

(** *** One row (lines 141-254) *)

(** [cell.get_text(strip=True)] under the database of the world. *)
Definition cell_text (cell : node) : str := get_text_strip (unicode W) cell.

(** [if link and not link.startswith('http'): link = urljoin(url, link)] *)
Definition absolutize (page_url link : str) : M str :=
  if truthy link && negb (startswith (lit "http") link)
  then lift (urljoin W page_url link)
  else ret link.

(** The JavaScript-link handling of lines 169-179. *)
Definition javascript_link (title_link : node) (link : str) : str :=
  if startswith (lit "javascript:") link then
    let onclick := node_get (lit "onclick") title_link in
    if truthy onclick then
      match search_quoted_digits (unicode W) onclick with
      | Some ntt_sn => detail_link ntt_sn
      | None => []
      end
    else link
  else link.

(** Title and link (lines 160-197). *)
Definition title_and_link (page_url : str) (row : node) (cells : list node)
  : M (str * str) :=
  match find_class (unicode W) (lit "td") (lit "ta_l") row with
  | Some title_cell =>
      match find (lit "a") title_cell with
      | Some title_link =>
          let title := cell_text title_link in
          let link := node_get (lit "href") title_link in
          let link := javascript_link title_link link in
          link <- absolutize page_url link ;;
          ret (title, link)
      | None => ret (cell_text title_cell, [])
      end
  | None =>
      title_cell <- index cells 1 ;;
      match find (lit "a") title_cell with
      | Some title_link =>
          let title := cell_text title_link in
          let link := node_get (lit "href") title_link in
          link <- absolutize page_url link ;;
          ret (title, link)
      | None => ret (cell_text title_cell, [])
      end
  end.

(** The date at index 3 (lines 200-208). *)
Definition date_at_index (cells : list node) : M str :=
  if 3 <? List.length cells then
    date_cell <- index cells 3 ;;
    match search_date (unicode W) (cell_text date_cell) with
    | Some d => ret d
    | None => ret []
    end
  else ret [].

(** [for idx, cell in enumerate(cells)] with its [break] (lines 212-219). *)
Fixpoint date_in_cells (idx : nat) (cells : list node) : M str :=
  match cells with
  | cell :: rest =>
      match search_date (unicode W) (cell_text cell) with
      | Some d => logging DEBUG (DateFoundAt idx d) ;;; ret d
      | None => date_in_cells (S idx) rest
      end
  | [] => ret []
  end.

(** Lines 232-238; the bare [except] has nothing to catch. *)
Definition format_date (date_text : str) : str :=
  match match_date (unicode W) date_text with
  | Some _ => replace_dot_dash date_text
  | None => date_text
  end.

(** The body of the row's [try] (lines 152-250); [None] is the
    [continue] of a pinned row. *)
Definition row_try (page_url : str) (row : node) (cells : list node)
  : M (option letter) :=
  number_cell <- index cells 0 ;;
  let number := cell_text number_cell in
  if eqb number notice_marker || eqb number integrated_notice_marker
  then ret None
  else
    tl <- title_and_link page_url row cells ;;
    date_text <- date_at_index cells ;;
    date_text <- (if truthy date_text then ret date_text
                  else date_in_cells 0 cells) ;;
    (if truthy date_text then ret tt
     else logging WARNING (DateNotFound (map cell_text cells))) ;;;
    let has_attachment :=
      existsb (fun cell => match find (lit "img") cell with
                           | Some _ => true
                           | None => false
                           end)
              cells in
    ret (Some {| number := number;
                 title := fst tl;
                 author := [];
                 date := format_date date_text;
                 views := lit "0";
                 url := snd tl;
                 has_attachment := has_attachment |}).

(** One turn of [for row in rows]: the record to append, if any. *)
Definition row_step (page_url : str) (row : node) : M (option letter) :=
  match find (lit "th") row with
  | Some _ => ret None
  | None =>
      let cells := find_all (lit "td") row in
      if List.length cells <? 4 then ret None
      else
        try_except except_Exception
          (row_try page_url row cells)
          (fun e => logging ERROR (RowParseError (exn_str e)) ;;; ret None)
  end.

Fixpoint for_rows (page_url : str) (rows : list node) (letters : list letter)
  : M (list letter) :=
  match rows with
  | row :: rest =>
      o <- row_step page_url row ;;
      for_rows page_url rest
        (match o with Some letter_data => letters ++ [letter_data] | None => letters end)
  | [] => ret letters
  end.

(** *** The call (lines 32-283) *)

(** The second [try] (lines 76-256): an envelope returned from inside
    it, or the list it leaves in [letters]. *)
Definition parse_and_extract (url site_name response : str)
  : M (envelope + list letter) :=
  soup <- lift (html_parser W response) ;;
  match find_tbody soup with
  | None =>
      pretty <- lift (prettify W soup) ;;
      let debug_html := firstn 5000 pretty in
      logging ERROR (TableNotFound debug_html) ;;;
      ret (inl (failure site_name url table_not_found_msg))
  | Some tbody =>
      let rows := find_all (lit "tr") tbody in
      letters <- for_rows url rows [] ;;
      logging INFO (CrawlDone (List.length letters)) ;;;
      ret (inr letters)
  end.

Definition crawl_school_letters (url : str) (site_name : option str)
  : M envelope :=
  let site_name := resolve_site_name url site_name in
  logging INFO (CrawlerStart site_name) ;;;
  fetched <-
    try_except except_RequestException
      (response <- lift (requests_get W url) ;; ret (inr response))
      (fun e =>
         logging ERROR (RequestError (exn_str e)) ;;;
         ret (inl (failure site_name url (exn_str e)))) ;;
  match fetched with
  | inl result => ret result
  | inr response =>
      parsed <-
        try_except except_Exception
          (parse_and_extract url site_name response)
          (fun e =>
             logging ERROR (HtmlParseError (exn_str e)) ;;;
             ret (inl (failure site_name url (parse_error_msg e)))) ;;
      match parsed with
      | inl result => ret result
      | inr letters =>
          let result :=
            {| letters := letters;
               meta := {| total_count := List.length letters;
                          last_updated := today W;
                          source := site_name;
                          meta_url := url;
                          error := None |} |} in
          logging INFO (CrawlDone (List.length letters)) ;;;
          ret result
      end
  end.

End Crawler.

(* ================================================================== *)
(** ** URL references *)

Module Url.

(** URL scheme detection as [urlsplit] does it: an ASCII letter, then
    ASCII letters, digits, [+], [-] or [.], up to the first colon. *)
Definition is_alpha (c : char) : bool :=
  (((65 <=? c) && (c <=? 90)) || ((97 <=? c) && (c <=? 122)))%N.

Definition is_scheme_char (c : char) : bool :=
  is_alpha c || ((48 <=? c) && (c <=? 57))%N || (c =? chr "+")%N
  || (c =? chr "-")%N || (c =? chr ".")%N.

Fixpoint scheme_rest (s : str) : bool :=
  match s with
  | c :: s' =>
      if (c =? chr ":")%N then true
      else if is_scheme_char c then scheme_rest s' else false
  | [] => false
  end.

(** A reference that carries its own scheme, that is an absolute URL. *)
Definition has_scheme (s : str) : bool :=
  match s with
  | c :: s' => is_alpha c && scheme_rest s'
  | [] => false
  end.

End Url.

(* ================================================================== *)
(** ** Sample pages and collaborators

    Concrete inputs on which the definitions are evaluated. *)

Module Sample.
Import Str Url Html Py.
Local Open Scope string_scope.

(** A sample of the database above ASCII: the whitespace characters of
    [str.isspace], and the decimal digits of the blocks listed, ten code
    points each from the one given. *)
Definition whitespace : list char :=
  [133; 160; 5760; 8192; 8193; 8194; 8195; 8196; 8197; 8198; 8199; 8200;
   8201; 8202; 8232; 8233; 8239; 8287; 12288]%N.

Definition digit_blocks : list char :=
  [1632; 1776; 1984; 2406; 2534; 2662; 2790; 2918; 3046; 3174; 3302; 3430;
   3664; 3792; 3872; 4160; 4240; 6112; 6160; 6470; 6608; 43216; 43264;
   65296]%N.

Definition database : Unicode :=
  {| decimal_beyond_ascii :=
       fun c => existsb (fun b => (b <=? c) && (c <? b + 10))%N digit_blocks;
     space_beyond_ascii := fun c => existsb (N.eqb c) whitespace |}.

(** The text before the [k]-th slash. *)
Fixpoint upto_slash (k : nat) (s : str) : str :=
  match s with
  | c :: s' =>
      if (c =? chr "/")%N then
        match k with
        | S (S k') => c :: upto_slash (S k') s'
        | _ => []
        end
      else c :: upto_slash k s'
  | [] => []
  end.

(** [scheme://host] of a page URL. *)
Definition origin (base : str) : str := upto_slash 3 base.

Fixpoint before_query (s : str) : str :=
  match s with
  | c :: s' =>
      if (c =? chr "?")%N then [] else c :: before_query s'
  | [] => []
  end.

(** The text up to and including the last slash. *)
Fixpoint dirname (s : str) : str :=
  match s with
  | c :: s' =>
      match dirname s' with
      | [] => if (c =? chr "/")%N then [c] else []
      | d => c :: d
      end
  | [] => []
  end.

(** [urljoin] on the shapes used below, for a page URL of the form
    [scheme://host/path?query] with an http scheme: an unclosed [//[]
    authority raises [ValueError]; a reference with a scheme of its own
    (the crawler passes none that begins with http) is returned as it is;
    a path starting with a slash replaces the path of the page; a path
    without dot segments is appended to the directory of the page. *)
Definition sample_urljoin (base link : str) : result str :=
  if startswith (lit "//[") link then
    Raise (mk_exn OtherException (lit "Invalid IPv6 URL"))
  else if has_scheme link then Ok link
  else if startswith (lit "/") link then Ok (origin base ++ link)%list
  else Ok (dirname (before_query base) ++ link)%list.

Definition page_url : str :=
  lit "https://school.example/board/list.do?mi=1".

Definition el (name : string) (cs : list node) : node := Elem (lit name) [] cs.
Definition el_with (name : string) (a : list (string * string))
           (cs : list node) : node :=
  Elem (lit name) (map (fun kv => (lit (fst kv), lit (snd kv))) a) cs.
Definition txt (s : string) : node := Text (lit s).
Definition td (s : string) : node := el "td" [txt s].

Definition header_row : node :=
  el "tr" [el "th" [txt "번호"]; el "th" [txt "제목"];
           el "th" [txt "작성자"]; el "th" [txt "등록일"]].

Definition pinned_row : node :=
  el "tr" [td "공지"; td "Pinned"; td "admin"; td "2024.01.02"].

(** The data row of the end-to-end scenario. *)
Definition data_row : node :=
  el "tr" [td "1";
           el "td" [el_with "a" [("href", "/view?id=9")] [txt "Notice A"]];
           td "author";
           td "2024.01.10"].

(** A row whose link cannot be joined. *)
Definition broken_row : node :=
  el "tr" [td "2";
           el "td" [el_with "a" [("href", "//[bad")] [txt "Broken"]];
           td "author";
           td "2024.01.11"].

Definition short_row : node := el "tr" [td "3"; td "Short"; td "2024.01.12"].

Definition undated_row : node :=
  el "tr" [td "4"; td " No date "; td "author"; td "-"].

(** A script-triggered link in a [td.ta_l] cell, without [onclick]. *)
Definition script_row : node :=
  el "tr" [td "5";
           el_with "td" [("class", "ta_l")]
             [el_with "a" [("href", "javascript:void(0)")] [txt "Notice B"]];
           td "author";
           td "2024.01.12"].

(** A script-triggered link with a quoted number in [onclick], in a
    title cell without the [ta_l] class. *)
Definition plain_script_row : node :=
  el "tr" [td "6";
           el "td" [el_with "a" [("href", "javascript:void(0)");
                                 ("onclick", "fn_view('12345')")]
                      [txt "Notice C"]];
           td "author";
           td "2024.01.13"].

(** A script-triggered link with a quoted number in [onclick], in a
    [td.ta_l] cell. *)
Definition onclick_row : node :=
  el "tr" [td "7";
           el_with "td" [("class", "tit ta_l")]
             [el_with "a" [("href", "javascript:void(0)");
                           ("onclick", "fn_view('12345')")]
                [txt "Notice D"]];
           td "author";
           td "2024.01.14"].

(** A relative link whose path begins with the letters http. *)
Definition http_path_row : node :=
  el "tr" [td "8";
           el "td" [el_with "a" [("href", "httpdocs/notice.html")] [txt "Notice E"]];
           td "author";
           td "2024.01.15"].

(** A pinned row whose marker is padded with no-break spaces (U+00A0)
    and an ideographic space (U+3000). *)
Definition padded_pinned_row : node :=
  el "tr" [el "td" [Text ([160; 12288]%N ++ lit "공지" ++ [160]%N)%list];
           td "Padded"; td "admin"; td "2024.01.03"].

(** A row dated in fullwidth digits, the date in the third cell and
    nowhere else. *)
Definition fullwidth_row : node :=
  el "tr" [td "9"; td "Fullwidth"; td "on ２０２４.０１.１０"; td "-"].

Definition wrap (rows : list node) : node :=
  Elem (lit "[document]") []
    [el "html" [el "body"
       [el_with "div" [("id", "subContent")]
          [el "div" [el_with "div" [("class", "BD_list")]
             [el "table" [el "tbody" rows]]]]]]].

(** A world that serves [soup] for every URL. *)
Definition serving (soup : node) : World :=
  {| unicode := database;
     requests_get := fun _ => Ok (lit "<html>");
     html_parser := fun _ => Ok soup;
     urljoin := sample_urljoin;
     prettify := fun _ => Ok (lit "<html>");
     today := lit "2024-03-15" |}.

(** A world whose HTTP client fails with [e]. *)
Definition failing (e : exn) : World :=
  {| unicode := database;
     requests_get := fun _ => Raise e;
     html_parser := fun _ => Ok (Elem (lit "[document]") [] []);
     urljoin := sample_urljoin;
     prettify := fun _ => Ok [];
     today := lit "2024-03-15" |}.

(** A world whose parser fails with [e]. *)
Definition unparsable (e : exn) : World :=
  {| unicode := database;
     requests_get := fun _ => Ok (lit "<html>");
     html_parser := fun _ => Raise e;
     urljoin := sample_urljoin;
     prettify := fun _ => Ok [];
     today := lit "2024-03-15" |}.

(** A world that serves [soup] and whose [prettify] fails with [e]. *)
Definition unprintable (soup : node) (e : exn) : World :=
  {| unicode := database;
     requests_get := fun _ => Ok (lit "<html>");
     html_parser := fun _ => Ok soup;
     urljoin := sample_urljoin;
     prettify := fun _ => Raise e;
     today := lit "2024-03-15" |}.

Definition listing_rows : list node :=
  [header_row; pinned_row; data_row; broken_row; short_row; undated_row].

Definition listing : node := wrap listing_rows.

Definition notice_a : letter :=
  {| number := lit "1"; title := lit "Notice A"; author := [];
     date := lit "2024-01-10"; views := lit "0";
     url := lit "https://school.example/view?id=9"; has_attachment := false |}.

Definition undated : letter :=
  {| number := lit "4"; title := lit "No date"; author := [];
     date := []; views := lit "0";
     url := []; has_attachment := false |}.

(** What the call returns for [listing], and the log it leaves. *)
Definition listing_envelope : envelope :=
  {| letters := [notice_a; undated];
     meta := {| total_count := 2;
                last_updated := lit "2024-03-15";
                source := lit "school.example";
                meta_url := page_url;
                error := None |} |}.

Definition listing_log : log :=
  [mk_record INFO (CrawlerStart (lit "school.example"));
   mk_record ERROR (RowParseError (lit "Invalid IPv6 URL"));
   mk_record WARNING
     (DateNotFound [lit "4"; lit "No date"; lit "author"; lit "-"]);
   mk_record INFO (CrawlDone 2);
   mk_record INFO (CrawlDone 2)].

(** What the HTTP client lets through when urllib3 rejects a host name. *)
Definition location_parse_error : exn :=
  mk_exn OtherException (lit "Failed to parse: label empty or too long").

Definition connection_error : exn :=
  mk_exn RequestException (lit "Connection refused").

Definition refused_envelope : envelope :=
  {| letters := [];
     meta := {| total_count := 0;
                last_updated := lit "2024-03-15";
                source := lit "school.example";
                meta_url := page_url;
                error := Some (lit "Connection refused") |} |}.

End Sample.

(* ================================================================== *)
(** ** Observations on a computation *)

(** The outcome of a computation started on an empty log, and what it
    writes. *)
Definition run {A} (c : Py.M A) : Py.result A := fst (c []).
Definition written {A} (c : Py.M A) : Py.log := snd (c []).

(** A computation that never reads the log: on any log it has the outcome
    it has on the empty one and appends what it writes there. *)
Definition appends {A} (c : Py.M A) : Prop :=
  forall l, c l = (run c, l ++ written c).

(** The record a row contributes to [letters], if any. *)
Definition row_record (W : World) (page_url : str) (row : Html.node)
  : option letter :=
  match run (row_step W page_url row) with
  | Py.Ok o => o
  | Py.Raise _ => None
  end.

(** The records of a sequence of rows, in row order. *)
Definition emitted (W : World) (page_url : str) (rows : list Html.node)
  : list letter :=
  flat_map
    (fun row => match row_record W page_url row with Some r => [r] | None => [] end)
    rows.

(** The title cell a row is read from: the first [td.ta_l] below the row,
    else the second cell. *)
Definition title_cell_of (W : World) (row : Html.node) (cells : list Html.node)
  : option Html.node :=
  match Html.find_class (unicode W) (lit "td") (lit "ta_l") row with
  | Some title_cell => Some title_cell
  | None => nth_error cells 1
  end.

(** The link of a row before it is joined to the page URL: the [href] of
    the title cell's first anchor, after the JavaScript handling where the
    cell was found by its class; empty without an anchor. *)
Definition resolved_link (W : World) (row : Html.node) (cells : list Html.node)
  : str :=
  match Html.find_class (unicode W) (lit "td") (lit "ta_l") row with
  | Some title_cell =>
      match Html.find (lit "a") title_cell with
      | Some title_link =>
          javascript_link W title_link (Html.node_get (lit "href") title_link)
      | None => []
      end
  | None =>
      match nth_error cells 1 with
      | Some title_cell =>
          match Html.find (lit "a") title_cell with
          | Some title_link => Html.node_get (lit "href") title_link
          | None => []
          end
      | None => []
      end
  end.

(** The text a row's title is read from. *)
Definition row_title (W : World) (row : Html.node) (cells : list Html.node)
  : str :=
  match title_cell_of W row cells with
  | Some title_cell =>
      match Html.find (lit "a") title_cell with
      | Some title_link => cell_text W title_link
      | None => cell_text W title_cell
      end
  | None => []
  end.

(** The outcome of [absolutize] on a link. *)
Definition absolutized (W : World) (page_url link : str) : Py.result str :=
  if Str.truthy link && negb (Str.startswith (lit "http") link)
  then urljoin W page_url link
  else Py.Ok link.

(** The first date token met when the cells are scanned in order. *)
Fixpoint first_date (W : World) (cells : list Html.node) : option str :=
  match cells with
  | cell :: rest =>
      match Re.search_date (unicode W) (cell_text W cell) with
      | Some d => Some d
      | None => first_date W rest
      end
  | [] => None
  end.

(** The token a row's date is made from: that of the cell at index 3 when
    it has one, else the first in any cell; empty when there is none. *)
Definition date_text_of (W : World) (cells : list Html.node) : str :=
  let scanned := match first_date W cells with Some d => d | None => [] end in
  match nth_error cells 3 with
  | Some date_cell =>
      match Re.search_date (unicode W) (cell_text W date_cell) with
      | Some d => d
      | None => scanned
      end
  | None => scanned
  end.

(** The dash-separated shape [digit{4}-digit{2}-digit{2}], nothing before
    or after; a digit is what [\d] matches. *)
Definition is_dashed_date (U : Unicode) (s : str) : bool :=
  match s with
  | [y1; y2; y3; y4; p1; m1; m2; p2; d1; d2] =>
      Str.is_digit U y1 && Str.is_digit U y2 && Str.is_digit U y3
      && Str.is_digit U y4 && (p1 =? chr "-")%N
      && Str.is_digit U m1 && Str.is_digit U m2 && (p2 =? chr "-")%N
      && Str.is_digit U d1 && Str.is_digit U d2
  | _ => false
  end.

(** A row of the table body is pinned: its first cell reads as one of the
    two markers. *)
Definition pinned (W : World) (row : Html.node) : Prop :=
  exists first rest,
    Html.find_all (lit "td") row = first :: rest
    /\ (cell_text W first = notice_marker
        \/ cell_text W first = integrated_notice_marker).

(** The record of a row that is emitted with the joined link [u]. *)
Definition record_of (W : World) (row : Html.node) (cells : list Html.node)
           (u : str) : letter :=
  {| number := match cells with
               | number_cell :: _ => cell_text W number_cell
               | [] => []
               end;
     title := row_title W row cells;
     author := [];
     date := format_date W (date_text_of W cells);
     views := lit "0";
     url := u;
     has_attachment :=
       existsb (fun cell => match Html.find (lit "img") cell with
                            | Some _ => true
                            | None => false
                            end) cells |}.

(** The warning of line 222 for a row without a date. *)
Definition date_warning (W : World) (cells : list Html.node) : Py.log_record :=
  Py.mk_record Py.WARNING (Py.DateNotFound (map (cell_text W) cells)).

(** The first cell of the row reads as a marker of a pinned row. *)
Definition is_marker (number : str) : bool :=
  Str.eqb number notice_marker || Str.eqb number integrated_notice_marker.

(** An absolute URL in the sense of RFC 3986, section 4.3: it begins with
    a scheme. The source tests [startswith('http')] instead. *)
Definition is_absolute_url (link : str) : bool := Url.has_scheme link.

(** The envelope of a call that found [letters] (lines 272-280). *)
Definition success (W : World) (site_name page_url : str) (ls : list letter)
  : envelope :=
  {| letters := ls;
     meta := {| total_count := List.length ls;
                last_updated := today W;
                source := site_name;
                meta_url := page_url;
                error := None |} |}.

(** The four ways a call returns, by what the collaborators answered. *)
Inductive call_outcome (W : World) (page_url site_name : str)
  : envelope -> Prop :=
| FetchFailed e :
    requests_get W page_url = Py.Raise e ->
    Py.exn_kind e = Py.RequestException ->
    call_outcome W page_url site_name
      (failure W site_name page_url (Py.exn_str e))
| ParseFailed response e :
    requests_get W page_url = Py.Ok response ->
    html_parser W response = Py.Raise e ->
    call_outcome W page_url site_name
      (failure W site_name page_url (parse_error_msg e))
| TableMissing response soup msg :
    requests_get W page_url = Py.Ok response ->
    html_parser W response = Py.Ok soup ->
    find_tbody W soup = None ->
    (msg = table_not_found_msg
     \/ exists e, prettify W soup = Py.Raise e /\ msg = parse_error_msg e) ->
    call_outcome W page_url site_name (failure W site_name page_url msg)
| Extracted response soup tbody :
    requests_get W page_url = Py.Ok response ->
    html_parser W response = Py.Ok soup ->
    find_tbody W soup = Some tbody ->
    call_outcome W page_url site_name
      (success W site_name page_url
         (emitted W page_url (Html.find_all (lit "tr") tbody))).

(** The call failed at the fetch, at the parse or at the table search. *)
Definition call_failed (W : World) (page_url : str) : Prop :=
  match requests_get W page_url with
  | Py.Raise _ => True
  | Py.Ok response =>
      match html_parser W response with
      | Py.Raise _ => True
      | Py.Ok soup => find_tbody W soup = None
      end
  end.

(* ================================================================== *)
(** ** Date tokens, as the pattern describes them *)

(** [y], [m] and [d] are runs of four, two and two digits. *)
Definition date_parts (U : Unicode) (y m d : str) : Prop :=
  List.length y = 4 /\ List.length m = 2 /\ List.length d = 2
  /\ Forall (fun c => Str.is_digit U c = true) (y ++ m ++ d).

(** The token [y.m.d] and the date [y-m-d]. *)
Definition dotted (y m d : str) : str := y ++ chr "." :: m ++ chr "." :: d.
Definition dashed (y m d : str) : str := y ++ chr "-" :: m ++ chr "-" :: d.

(** The text holds the token [y.m.d] right after [pre]. *)
Definition token_at (U : Unicode) (text pre y m d : str) : Prop :=
  date_parts U y m d /\ exists post, text = pre ++ dotted y m d ++ post.

(** The text holds a token somewhere. *)
Definition holds_token (U : Unicode) (text : str) : Prop :=
  exists pre y m d, token_at U text pre y m d.

(** [y.m.d] is the token of the text that starts first. *)
Definition leftmost_token (U : Unicode) (text y m d : str) : Prop :=
  exists pre,
    token_at U text pre y m d
    /\ forall pre' y' m' d',
         token_at U text pre' y' m' d' -> List.length pre <= List.length pre'.

(* ================================================================== *)
(** ** The script entry point (lines 285-293) *)

Definition test_url : str :=
  lit "https://school.gyo6.net/ocheonhs/na/ntt/selectNttList.do?mi=159125&bbsId=76556".

Definition school_name : str := Eval vm_compute in lit "오천고등학교".

(** The text of [print("\n가정통신문 목록:")]. *)
Definition heading : str := 10%N :: lit "가정통신문 목록:".

(** [f"{letter.get('title')}\t{letter.get('date')}"] *)
Definition print_line (letter_data : letter) : str :=
  title letter_data ++ 9%N :: date letter_data.

(** The [__main__] block; the value is what it prints, one text per
    [print]. *)
Definition main (W : World) : Py.M (list str) :=
  Py.bind (crawl_school_letters W test_url (Some school_name))
    (fun result => Py.ret (heading :: map print_line (letters result))).

(* ================================================================== *)
(** ** Further observations *)

(** What one turn of the row loop writes to the log. *)
Definition row_log (W : World) (page_url : str) (row : Html.node) : Py.log :=
  written (row_step W page_url row).

Definition start_record (site_name : str) : Py.log_record :=
  Py.mk_record Py.INFO (Py.CrawlerStart site_name).

Definition done_record (count : nat) : Py.log_record :=
  Py.mk_record Py.INFO (Py.CrawlDone count).

Definition error_record (m : Py.message) : Py.log_record :=
  Py.mk_record Py.ERROR m.

(** The loop passes the row over before its [try] block or at the marker
    test: it has a [th] cell, fewer than four [td] cells, or a first cell
    that reads as a marker. *)
Definition passed_over (W : World) (row : Html.node) : bool :=
  match Html.find (lit "th") row with
  | Some _ => true
  | None =>
      (List.length (Html.find_all (lit "td") row) <? 4)
      || match Html.find_all (lit "td") row with
         | number_cell :: _ => is_marker (cell_text W number_cell)
         | [] => true
         end
  end.

(** No slash occurs in the text. *)
Fixpoint no_slash (s : str) : bool :=
  match s with
  | c :: s' => negb (c =? chr "/")%N && no_slash s'
  | [] => true
  end.

(** What may follow the first slash-free stretch of a URL for the stretch
    to end there: nothing, or a slash and more. *)
Definition path_tail (tail : str) : Prop :=
  tail = [] \/ exists rest, tail = chr "/" :: rest.

(** Only digits occur in the text; a digit is what [\d] matches. *)
Definition digits_only (U : Unicode) (s : str) : bool :=
  forallb (Str.is_digit U) s.

(** A text that does not begin with whitespace. *)
Definition head_ok (U : Unicode) (s : str) : Prop :=
  match s with
  | c :: _ => Str.is_space U c = false
  | [] => True
  end.

(** The cell holds an [img] element. *)
Definition holds_image (cell : Html.node) : Prop :=
  exists img, In img (Html.descendants cell) /\ Html.is_tag (lit "img") img = true.

(* ================================================================== *)
(** ** The log is write-only *)

Section Appends.
Import Py.
Local Open Scope py_scope.

Lemma appends_ret {A} (a : A) : appends (ret a).
Proof. intro l. unfold ret, run, written. simpl. now rewrite app_nil_r. Qed.

Lemma appends_raise {A} (e : exn) : appends (@raise A e).
Proof. intro l. unfold raise, run, written. simpl. now rewrite app_nil_r. Qed.

Lemma appends_lift {A} (r : result A) : appends (lift r).
Proof. intro l. unfold lift, run, written. simpl. now rewrite app_nil_r. Qed.

Lemma appends_logging (lv : level) (m : message) : appends (logging lv m).
Proof.
  intro l. unfold logging, run, written.
  destruct (level_no INFO <=? level_no lv); simpl; trivial.
  now rewrite app_nil_r.
Qed.

Lemma appends_bind {A B} (c : M A) (k : A -> M B) :
  appends c -> (forall a, appends (k a)) -> appends (bind c k).
Proof.
  intros Hc Hk l. unfold run, written, bind.
  rewrite (Hc l), (Hc []). simpl.
  destruct (run c) as [a|e]; simpl.
  - rewrite (Hk a (l ++ written c)), (Hk a (written c)). simpl.
    now rewrite app_assoc.
  - reflexivity.
Qed.

Lemma appends_try_except {A} (catches : exn_class -> bool)
      (body : M A) (handler : exn -> M A) :
  appends body -> (forall e, appends (handler e)) ->
  appends (try_except catches body handler).
Proof.
  intros Hb Hh l. unfold run, written, try_except.
  rewrite (Hb l), (Hb []). simpl.
  destruct (run body) as [a|e]; simpl; trivial.
  destruct (catches (exn_kind e)); simpl; trivial.
  rewrite (Hh e (l ++ written body)), (Hh e (written body)). simpl.
  now rewrite app_assoc.
Qed.

Lemma appends_index {A} (xs : list A) (i : nat) : appends (index xs i).
Proof.
  unfold index. destruct (nth_error xs i).
  - apply appends_ret.
  - apply appends_raise.
Qed.

End Appends.

Create HintDb appends.
#[local] Hint Resolve appends_ret appends_raise appends_lift appends_logging
  appends_index : appends.

Ltac appends_step :=
  match goal with
  | |- appends (Py.bind _ _) => apply appends_bind; [ | intro ]
  | |- appends (Py.try_except _ _ _) => apply appends_try_except; [ | intro ]
  | |- appends (match ?x with _ => _ end) => destruct x
  | |- appends (if ?b then _ else _) => destruct b
  | |- appends _ => solve [ auto with appends ]
  end.

Section RowLaws.
Import Str Re Html Py.
Variable W : World.
Variable page_url : str.

Lemma absolutize_appends link : appends (absolutize W page_url link).
Proof. unfold absolutize. repeat appends_step. Qed.

Lemma title_and_link_appends row cells :
  appends (title_and_link W page_url row cells).
Proof.
  unfold title_and_link.
  repeat (appends_step || apply absolutize_appends).
Qed.

Lemma date_at_index_appends cells : appends (date_at_index W cells).
Proof. unfold date_at_index. repeat appends_step. Qed.

Lemma date_in_cells_appends cells : forall idx, appends (date_in_cells W idx cells).
Proof.
  induction cells as [|cell rest IH]; intro idx; simpl.
  - apply appends_ret.
  - destruct (search_date (unicode W) (cell_text W cell)).
    + repeat appends_step.
    + apply IH.
Qed.

Lemma row_try_appends row cells : appends (row_try W page_url row cells).
Proof.
  unfold row_try.
  repeat (appends_step
          || apply title_and_link_appends
          || apply date_at_index_appends
          || apply date_in_cells_appends).
Qed.

Lemma row_step_appends row : appends (row_step W page_url row).
Proof.
  unfold row_step. repeat (appends_step || apply row_try_appends).
Qed.

(** A turn of the row loop never raises: whatever the row's [try] raises
    is caught, and the row contributes [row_record]. *)
Lemma row_step_returns row l :
  row_step W page_url row l
  = (Ok (row_record W page_url row), l ++ written (row_step W page_url row)).
Proof.
  rewrite (row_step_appends row l). f_equal.
  unfold row_record.
  destruct (run (row_step W page_url row)) as [o|e] eqn:E; trivial.
  exfalso. revert E. unfold run, row_step.
  destruct (find (lit "th") row); [discriminate|].
  destruct (List.length (find_all (lit "td") row) <? 4); [discriminate|].
  unfold try_except.
  destruct (row_try W page_url row (find_all (lit "td") row) []) as [[o|e'] l'];
    simpl; [discriminate|].
  unfold bind, logging, ret. simpl. discriminate.
Qed.

Lemma for_rows_returns rows : forall acc l,
  exists l', for_rows W page_url rows acc l
             = (Ok (acc ++ emitted W page_url rows), l').
Proof.
  induction rows as [|row rest IH]; intros acc l; simpl.
  - exists l. unfold ret. now rewrite app_nil_r.
  - unfold bind at 1. rewrite row_step_returns.
    destruct (row_record W page_url row) as [r|].
    + destruct (IH (acc ++ [r]) (l ++ written (row_step W page_url row)))
        as [l' Hl'].
      exists l'. rewrite Hl'. now rewrite <- app_assoc.
    + apply IH.
Qed.

End RowLaws.

(* ================================================================== *)
(** ** The shape of a call *)

Section CallLaws.
Import Str Re Html Py.
Variable W : World.
Variable page_url : str.

Lemma parse_and_extract_cases site_name response l :
  match html_parser W response with
  | Raise e => parse_and_extract W page_url site_name response l = (Raise e, l)
  | Ok soup =>
      match find_tbody W soup with
      | Some tbody =>
          exists l', parse_and_extract W page_url site_name response l
                     = (Ok (inr (emitted W page_url (find_all (lit "tr") tbody))), l')
      | None =>
          match prettify W soup with
          | Raise e =>
              parse_and_extract W page_url site_name response l = (Raise e, l)
          | Ok _ =>
              exists l', parse_and_extract W page_url site_name response l
                = (Ok (inl (failure W site_name page_url table_not_found_msg)), l')
          end
      end
  end.
Proof.
  unfold parse_and_extract, bind, lift, logging, ret. simpl.
  destruct (html_parser W response) as [soup|e]; trivial.
  destruct (find_tbody W soup) as [tbody|].
  - destruct (for_rows_returns W page_url (find_all (lit "tr") tbody) [] l) as [l' E].
    rewrite E. simpl. eauto.
  - destruct (prettify W soup) as [pretty|e]; trivial. eauto.
Qed.

(** A call that returns, returns in one of the four ways. *)
Lemma crawl_outcome site_name l env l' :
  crawl_school_letters W page_url site_name l = (Ok env, l') ->
  call_outcome W page_url (resolve_site_name page_url site_name) env.
Proof.
  unfold crawl_school_letters.
  set (site := resolve_site_name page_url site_name).
  unfold bind at 1, logging at 1. simpl.
  unfold bind at 1, try_except at 1, bind at 1, lift at 1.
  destruct (requests_get W page_url) as [response|e] eqn:Eget.
  - unfold ret at 1. unfold bind at 1, try_except at 1.
    pose proof (parse_and_extract_cases site response
                  (l ++ [mk_record INFO (CrawlerStart site)])) as Hp.
    destruct (html_parser W response) as [soup|e] eqn:Eparse.
    + destruct (find_tbody W soup) as [tbody|] eqn:Etb.
      * destruct Hp as [l1 Hp]. rewrite Hp.
        unfold bind, logging, ret. simpl. intros [= <- _].
        eapply Extracted; eauto.
      * destruct (prettify W soup) as [pretty|e] eqn:Epretty.
        -- destruct Hp as [l1 Hp]. rewrite Hp. unfold ret.
           intros [= <- _]. eapply TableMissing; eauto.
        -- rewrite Hp. unfold except_Exception, bind, logging, ret. simpl.
           intros [= <- _]. eapply TableMissing; eauto.
    + rewrite Hp. unfold except_Exception, bind, logging, ret. simpl.
      intros [= <- _]. eapply ParseFailed; eauto.
  - destruct e as [[|] msg]; simpl.
    + unfold bind, logging, ret. simpl. intros [= <- _].
      apply (FetchFailed W page_url site (mk_exn RequestException msg)); trivial.
    + discriminate.
Qed.

(** A call raises only what the HTTP client raised outside the
    [RequestException] family. *)
Lemma crawl_returns site_name l :
  (forall e, requests_get W page_url = Raise e ->
             exn_kind e = RequestException) ->
  exists env l', crawl_school_letters W page_url site_name l = (Ok env, l').
Proof.
  intro Hreq. unfold crawl_school_letters.
  set (site := resolve_site_name page_url site_name).
  unfold bind at 1, logging at 1. simpl.
  unfold bind at 1, try_except at 1, bind at 1, lift at 1.
  destruct (requests_get W page_url) as [response|e] eqn:Eget.
  - unfold ret at 1. unfold bind at 1, try_except at 1.
    pose proof (parse_and_extract_cases site response
                  (l ++ [mk_record INFO (CrawlerStart site)])) as Hp.
    destruct (html_parser W response) as [soup|e].
    + destruct (find_tbody W soup) as [tbody|].
      * destruct Hp as [l1 Hp]. rewrite Hp.
        unfold bind, logging, ret. simpl. eauto.
      * destruct (prettify W soup) as [pretty|e].
        -- destruct Hp as [l1 Hp]. rewrite Hp. unfold ret. eauto.
        -- rewrite Hp. unfold except_Exception, bind, logging, ret. simpl. eauto.
    + rewrite Hp. unfold except_Exception, bind, logging, ret. simpl. eauto.
  - rewrite (Hreq e eq_refl). simpl.
    unfold bind, logging, ret. simpl. eauto.
Qed.

(** An exception of the HTTP client outside the [RequestException]
    family reaches the caller. *)
Lemma crawl_raises site_name l e :
  requests_get W page_url = Raise e ->
  exn_kind e = OtherException ->
  fst (crawl_school_letters W page_url site_name l) = Raise e.
Proof.
  intros Eget Ekind. unfold crawl_school_letters.
  unfold bind at 1, logging at 1. simpl.
  unfold bind at 1, try_except at 1, bind at 1, lift at 1.
  rewrite Eget, Ekind. reflexivity.
Qed.

End CallLaws.

(* ================================================================== *)
(** ** Dates *)

Section DateLaws.
Import Str Re.
Variable W : World.

Lemma digit_not_dot c : is_digit (unicode W) c = true -> (c =? chr ".")%N = false.
Proof.
  unfold is_digit. change (chr ".") with 46%N. intro H.
  apply N.eqb_neq. intros ->. cbn in H. discriminate.
Qed.

Lemma replace_digits s :
  Forall (fun c => is_digit (unicode W) c = true) s -> replace_dot_dash s = s.
Proof.
  induction 1 as [|c s Hc _ IH]; cbn [replace_dot_dash]; trivial.
  now rewrite (digit_not_dot c Hc), IH.
Qed.

Lemma replace_app a b :
  replace_dot_dash (a ++ b) = replace_dot_dash a ++ replace_dot_dash b.
Proof. induction a as [|c a IH]; cbn; [reflexivity | now rewrite IH]. Qed.

Lemma date_parts_digits y m d :
  date_parts (unicode W) y m d ->
  Forall (fun c => is_digit (unicode W) c = true) y
  /\ Forall (fun c => is_digit (unicode W) c = true) m
  /\ Forall (fun c => is_digit (unicode W) c = true) d.
Proof.
  intros [_ [_ [_ H]]]. apply Forall_app in H. destruct H as [Hy H].
  apply Forall_app in H. tauto.
Qed.

(** Replacing the dots of a token gives the dashed date. *)
Lemma replace_dotted y m d :
  date_parts (unicode W) y m d -> replace_dot_dash (dotted y m d) = dashed y m d.
Proof.
  intro H. apply date_parts_digits in H. destruct H as [Hy [Hm Hd]].
  unfold dotted, dashed.
  rewrite replace_app. cbn [replace_dot_dash].
  rewrite replace_app. cbn [replace_dot_dash].
  rewrite (replace_digits y Hy), (replace_digits m Hm), (replace_digits d Hd).
  reflexivity.
Qed.

(** The anchored pattern matches exactly the texts that begin with a
    token, and gives the token. *)
Lemma match_date_token s tok :
  match_date (unicode W) s = Some tok
  <-> exists y m d post,
        date_parts (unicode W) y m d /\ s = dotted y m d ++ post /\ tok = dotted y m d.
Proof.
  split.
  - unfold match_date.
    destruct s as [|y1 [|y2 [|y3 [|y4 [|p1 [|m1 [|m2 [|p2 [|d1 [|d2 s]]]]]]]]]];
      try discriminate.
    destruct (is_digit (unicode W) y1 && is_digit (unicode W) y2 && is_digit (unicode W) y3 && is_digit (unicode W) y4
              && (p1 =? chr ".")%N && is_digit (unicode W) m1 && is_digit (unicode W) m2
              && (p2 =? chr ".")%N && is_digit (unicode W) d1 && is_digit (unicode W) d2) eqn:E;
      [|discriminate].
    intros [= <-].
    do 9 (apply andb_prop in E; destruct E as [E ?]).
    repeat match goal with
           | H : (_ =? _)%N = true |- _ => apply N.eqb_eq in H; subst
           end.
    exists [y1; y2; y3; y4], [m1; m2], [d1; d2], s.
    repeat split; repeat constructor; assumption.
  - intros [y [m [d [post [[Ly [Lm [Ld Hf]]] [-> ->]]]]]].
    destruct y as [|y1 [|y2 [|y3 [|y4 [|]]]]]; try discriminate Ly.
    destruct m as [|m1 [|m2 [|]]]; try discriminate Lm.
    destruct d as [|d1 [|d2 [|]]]; try discriminate Ld.
    cbn [app] in Hf.
    repeat match goal with
           | H : Forall _ (_ :: _) |- _ => inversion H; clear H; subst
           end.
    unfold dotted, match_date. cbn [app].
    repeat match goal with
           | H : is_digit (unicode W) _ = true |- _ => rewrite H; clear H
           end.
    rewrite N.eqb_refl. reflexivity.
Qed.

(** A string matched at its start is ten characters of the dotted shape;
    the text matched matches again, and its dashed form has the dashed
    shape. *)
Lemma match_date_shape s d :
  match_date (unicode W) s = Some d ->
  match_date (unicode W) d = Some d /\ is_dashed_date (unicode W) (replace_dot_dash d) = true.
Proof.
  intro H. apply match_date_token in H.
  destruct H as [y [m [dd [post [Hp [_ ->]]]]]]. split.
  - apply match_date_token. exists y, m, dd, []. rewrite app_nil_r. split; [exact Hp | split; reflexivity].
  - rewrite (replace_dotted y m dd Hp).
    destruct Hp as [Ly [Lm [Ld Hf]]].
    destruct y as [|y1 [|y2 [|y3 [|y4 [|]]]]]; try discriminate Ly.
    destruct m as [|m1 [|m2 [|]]]; try discriminate Lm.
    destruct dd as [|d1 [|d2 [|]]]; try discriminate Ld.
    cbn [app] in Hf.
    repeat match goal with
           | H : Forall _ (_ :: _) |- _ => inversion H; clear H; subst
           end.
    unfold dashed, is_dashed_date. cbn [app].
    repeat match goal with
           | H : is_digit (unicode W) _ = true |- _ => rewrite H; clear H
           end.
    rewrite N.eqb_refl. reflexivity.
Qed.

Lemma search_date_shape s d :
  search_date (unicode W) s = Some d ->
  match_date (unicode W) d = Some d /\ is_dashed_date (unicode W) (replace_dot_dash d) = true.
Proof.
  induction s as [|c s IH]; cbn [search_date].
  - cbn. discriminate.
  - destruct (match_date (unicode W) (c :: s)) eqn:E.
    + intros [= <-]. eapply match_date_shape; eauto.
    + exact IH.
Qed.

Lemma search_date_truthy s d : search_date (unicode W) s = Some d -> truthy d = true.
Proof.
  intro H. apply search_date_shape in H. destruct H as [H _].
  destruct d; [discriminate H | reflexivity].
Qed.

(** Every token the search finds is normalised. *)
Lemma format_date_token s d :
  search_date (unicode W) s = Some d -> format_date W d = replace_dot_dash d.
Proof.
  intro H. apply search_date_shape in H. destruct H as [H _].
  unfold format_date. now rewrite H.
Qed.

(** The search gives the token that starts first. *)
Lemma search_date_leftmost s tok :
  search_date (unicode W) s = Some tok ->
  exists y m d, tok = dotted y m d /\ leftmost_token (unicode W) s y m d.
Proof.
  induction s as [|c s IH]; cbn [search_date].
  - cbn. discriminate.
  - destruct (match_date (unicode W) (c :: s)) as [t|] eqn:E.
    + intros [= <-]. apply match_date_token in E.
      destruct E as [y [m [d [post [Hp [Hs ->]]]]]].
      exists y, m, d. split; trivial. exists []. split.
      * split; trivial. exists post. exact Hs.
      * intros. cbn. lia.
    + intro H. destruct (IH H) as [y [m [d [-> [pre [[Hp [post Hs]] Hmin]]]]]].
      exists y, m, d. split; trivial. exists (c :: pre). split.
      * split; trivial. exists post. cbn [app]. now rewrite <- Hs.
      * intros pre' y' m' d' [Hp' [post' Hs']].
        destruct pre' as [|c' pre'].
        -- exfalso. cbn [app] in Hs'.
           assert (Hm : match_date (unicode W) (c :: s) = Some (dotted y' m' d')).
           { apply match_date_token. exists y', m', d', post'. split; [assumption | split; trivial]. }
           congruence.
        -- cbn [app] in Hs'. injection Hs' as _ Hs'.
           cbn [List.length]. apply le_n_S.
           apply (Hmin pre' y' m' d'). split; trivial. now exists post'.
Qed.

(** The search finds nothing exactly in the texts that hold no token. *)
Lemma search_date_none_iff s :
  search_date (unicode W) s = None <-> ~ holds_token (unicode W) s.
Proof.
  split.
  - intros H [pre [y [m [d [Hp [post ->]]]]]]. revert H.
    induction pre as [|c pre IH]; cbn [app].
    + assert (Hm : match_date (unicode W) (dotted y m d ++ post) = Some (dotted y m d)).
      { apply match_date_token. exists y, m, d, post. split; [assumption | split; trivial]. }
      destruct (dotted y m d ++ post); cbn [search_date]; rewrite Hm; discriminate.
    + cbn [search_date].
      destruct (match_date (unicode W) (c :: pre ++ dotted y m d ++ post));
        [discriminate | exact IH].
  - intro H. destruct (search_date (unicode W) s) as [tok|] eqn:E; trivial.
    exfalso. apply H. apply search_date_leftmost in E.
    destruct E as [y [m [d [_ [pre [Ht _]]]]]]. now exists pre, y, m, d.
Qed.

Lemma first_date_token cells d :
  first_date W cells = Some d ->
  exists cell, In cell cells /\ search_date (unicode W) (cell_text W cell) = Some d.
Proof.
  induction cells as [|cell rest IH]; cbn [first_date]; [discriminate|].
  destruct (search_date (unicode W) (cell_text W cell)) eqn:E.
  - intros [= <-]. exists cell. split; [now left | assumption].
  - intro H. destruct (IH H) as [c [Hin Hc]]. exists c. split; [now right | assumption].
Qed.

(** The first token of the scan comes from the first cell that has one. *)
Lemma first_date_split cells d :
  first_date W cells = Some d ->
  exists before cell after,
    cells = before ++ cell :: after
    /\ (forall c, In c before -> search_date (unicode W) (cell_text W c) = None)
    /\ search_date (unicode W) (cell_text W cell) = Some d.
Proof.
  induction cells as [|cell rest IH]; cbn [first_date]; [discriminate|].
  destruct (search_date (unicode W) (cell_text W cell)) eqn:E.
  - intros [= <-]. exists [], cell, rest. repeat split; trivial. intros c [].
  - intro H. destruct (IH H) as [before [c0 [after [-> [Hb Hc]]]]].
    exists (cell :: before), c0, after. repeat split; trivial.
    intros c [<- | Hin]; [exact E | now apply Hb].
Qed.

Lemma first_date_none_iff cells :
  first_date W cells = None
  <-> forall cell, In cell cells -> search_date (unicode W) (cell_text W cell) = None.
Proof.
  induction cells as [|cell rest IH]; cbn [first_date].
  - split; [intros _ c [] | reflexivity].
  - destruct (search_date (unicode W) (cell_text W cell)) eqn:E.
    + split; [discriminate|]. intro H.
      rewrite (H cell (or_introl eq_refl)) in E. discriminate.
    + rewrite IH. split.
      * intros H c [<- | Hc]; [exact E | now apply H].
      * intros H c Hc. apply H. now right.
Qed.

(** The date of a record is empty or dashed. *)
Lemma format_date_text_shape cells :
  format_date W (date_text_of W cells) = []
  \/ is_dashed_date (unicode W) (format_date W (date_text_of W cells)) = true.
Proof.
  assert (Hscan :
    let scanned := match first_date W cells with Some d => d | None => [] end in
    format_date W scanned = []
    \/ is_dashed_date (unicode W) (format_date W scanned) = true).
  { destruct (first_date W cells) as [d|] eqn:E; cbn zeta.
    - destruct (first_date_token _ _ E) as [c [_ Hc]].
      right. rewrite (format_date_token _ _ Hc).
      now apply search_date_shape in Hc.
    - now left. }
  unfold date_text_of.
  destruct (nth_error cells 3) as [c3|]; [|exact Hscan].
  destruct (search_date (unicode W) (cell_text W c3)) as [d|] eqn:E; [|exact Hscan].
  right. rewrite (format_date_token _ _ E). now apply search_date_shape in E.
Qed.

End DateLaws.

(* ================================================================== *)
(** ** Equality of texts *)

Section TextEquality.
Import Str.

Lemma str_eqb_refl s : eqb s s = true.
Proof. induction s as [|c s IH]; cbn; [reflexivity | now rewrite N.eqb_refl]. Qed.

Lemma str_eqb_eq a b : eqb a b = true <-> a = b.
Proof.
  split; [|intros ->; apply str_eqb_refl].
  revert b. induction a as [|x a IH]; intros [|y b]; cbn; try discriminate; trivial.
  intro H. apply andb_prop in H. destruct H as [Hx Hab].
  apply N.eqb_eq in Hx. subst. f_equal. now apply IH.
Qed.

Lemma str_eqb_neq a b : eqb a b = false <-> a <> b.
Proof.
  rewrite <- str_eqb_eq. destruct (eqb a b); split; congruence.
Qed.

End TextEquality.

(* ================================================================== *)
(** ** A row in closed form *)

Section RowEval.
Import Str Re Html Py.
Variable W : World.
Variable page_url : str.

Lemma absolutize_eval link l :
  absolutize W page_url link l = (absolutized W page_url link, l).
Proof.
  unfold absolutize, absolutized.
  destruct (truthy link && negb (startswith (lit "http") link)); reflexivity.
Qed.

Lemma title_and_link_eval row cells title_cell l :
  nth_error cells 1 = Some title_cell ->
  title_and_link W page_url row cells l
  = (match absolutized W page_url (resolved_link W row cells) with
     | Ok u => Ok (row_title W row cells, u)
     | Raise e => Raise e
     end, l).
Proof.
  intro H1.
  unfold title_and_link, resolved_link, row_title, title_cell_of, index.
  rewrite H1.
  destruct (find_class (unicode W) (lit "td") (lit "ta_l") row) as [tc|].
  - destruct (find (lit "a") tc) as [a|].
    + unfold bind. rewrite absolutize_eval.
      destruct (absolutized W page_url _); reflexivity.
    + reflexivity.
  - unfold bind at 1, ret at 1.
    destruct (find (lit "a") title_cell) as [a|].
    + unfold bind. rewrite absolutize_eval.
      destruct (absolutized W page_url _); reflexivity.
    + reflexivity.
Qed.

(** A [DEBUG] record is below the level of the log: the scan leaves the
    log as it is. *)
Lemma date_in_cells_eval cells : forall idx l,
  date_in_cells W idx cells l
  = (Ok (match first_date W cells with Some d => d | None => [] end), l).
Proof.
  induction cells as [|cell rest IH]; intros idx l; cbn [date_in_cells first_date].
  - reflexivity.
  - destruct (search_date (unicode W) (cell_text W cell)); [reflexivity | apply IH].
Qed.

Lemma row_try_eval row c0 c1 c2 c3 rest l :
  let cells := c0 :: c1 :: c2 :: c3 :: rest in
  row_try W page_url row cells l
  = if is_marker (cell_text W c0) then (Ok None, l)
    else match absolutized W page_url (resolved_link W row cells) with
         | Raise e => (Raise e, l)
         | Ok u =>
             (Ok (Some (record_of W row cells u)),
              l ++ (if truthy (date_text_of W cells) then []
                    else [date_warning W cells]))
         end.
Proof.
  intro cells. unfold row_try, is_marker.
  unfold bind at 1. unfold index at 1. cbn [cells nth_error ret].
  fold cells.
  destruct (eqb (cell_text W c0) notice_marker
            || eqb (cell_text W c0) integrated_notice_marker);
    [reflexivity|].
  unfold bind at 1.
  rewrite (title_and_link_eval row cells c1 l eq_refl).
  destruct (absolutized W page_url (resolved_link W row cells)) as [u|e];
    [|reflexivity].
  unfold date_at_index, record_of, date_text_of, date_warning, bind, index, ret.
  cbn [cells List.length Nat.ltb Nat.leb nth_error fst snd]. fold cells.
  destruct (search_date (unicode W) (cell_text W c3)) as [d|] eqn:E.
  - rewrite !(search_date_truthy W _ _ E). now rewrite app_nil_r.
  - cbn [truthy]. rewrite date_in_cells_eval.
    destruct (truthy match first_date W cells with
                     | Some d => d
                     | None => []
                     end).
    + now rewrite app_nil_r.
    + reflexivity.
Qed.

(** One turn of the row loop, by cases. *)
Lemma row_step_eval row l :
  row_step W page_url row l
  = match find (lit "th") row with
    | Some _ => (Ok None, l)
    | None =>
        let cells := find_all (lit "td") row in
        match cells with
        | c0 :: _ :: _ :: _ :: _ =>
            if is_marker (cell_text W c0) then (Ok None, l)
            else match absolutized W page_url (resolved_link W row cells) with
                 | Raise e =>
                     (Ok None, l ++ [mk_record ERROR (RowParseError (exn_str e))])
                 | Ok u =>
                     (Ok (Some (record_of W row cells u)),
                      l ++ (if truthy (date_text_of W cells) then []
                            else [date_warning W cells]))
                 end
        | _ => (Ok None, l)
        end
    end.
Proof.
  unfold row_step. cbn zeta.
  destruct (find (lit "th") row); [reflexivity|].
  destruct (find_all (lit "td") row) as [|c0 [|c1 [|c2 [|c3 rest]]]]; try reflexivity.
  cbn [List.length Nat.ltb Nat.leb].
  unfold try_except. rewrite row_try_eval.
  destruct (is_marker (cell_text W c0)); [reflexivity|].
  destruct (absolutized W page_url _) as [u|e]; reflexivity.
Qed.

(** The rows that contribute a record, and the record. *)
Lemma row_record_inv row r :
  row_record W page_url row = Some r ->
  let cells := find_all (lit "td") row in
  find (lit "th") row = None
  /\ 4 <= List.length cells
  /\ (exists number_cell rest,
        cells = number_cell :: rest
        /\ is_marker (cell_text W number_cell) = false)
  /\ exists u, absolutized W page_url (resolved_link W row cells) = Ok u
               /\ r = record_of W row cells u.
Proof.
  unfold row_record, run. rewrite row_step_eval. cbn zeta.
  destruct (find (lit "th") row); [discriminate|].
  destruct (find_all (lit "td") row) as [|c0 [|c1 [|c2 [|c3 rest]]]]; try discriminate.
  destruct (is_marker (cell_text W c0)) eqn:Em; [discriminate|].
  destruct (absolutized W page_url _) as [u|e] eqn:Ea; [|discriminate].
  cbn. intros [= <-].
  repeat split; try (cbn; lia); eauto.
Qed.

Lemma row_record_intro row u :
  find (lit "th") row = None ->
  4 <= List.length (find_all (lit "td") row) ->
  (exists number_cell rest,
     find_all (lit "td") row = number_cell :: rest
     /\ is_marker (cell_text W number_cell) = false) ->
  absolutized W page_url (resolved_link W row (find_all (lit "td") row)) = Ok u ->
  row_record W page_url row = Some (record_of W row (find_all (lit "td") row) u).
Proof.
  intros Hth Hlen [c0 [rest [Hcells Hm]]] Ha.
  unfold row_record, run.
  rewrite row_step_eval. cbn zeta. rewrite Hth.
  destruct (find_all (lit "td") row) as [|c0' [|c1 [|c2 [|c3 rest']]]] eqn:Ec;
    cbn in Hlen; try lia.
  injection Hcells as -> _. rewrite Hm, Ha. reflexivity.
Qed.

(** A non-empty link that does not begin with http is joined to the page
    URL; any other link is kept. *)
Lemma absolutized_relative link :
  truthy link = true -> startswith (lit "http") link = false ->
  absolutized W page_url link = urljoin W page_url link.
Proof. intros Ht Hs. unfold absolutized. now rewrite Ht, Hs. Qed.

Lemma absolutized_kept link :
  truthy link = false \/ startswith (lit "http") link = true ->
  absolutized W page_url link = Ok link.
Proof.
  intros [H | H]; unfold absolutized; rewrite H; [reflexivity|].
  now rewrite andb_false_r.
Qed.

(** What a turn that emits a record writes to the log. *)
Lemma row_step_emits row l r l' :
  row_step W page_url row l = (Ok (Some r), l') ->
  row_record W page_url row = Some r
  /\ l' = l ++ (if truthy (date_text_of W (find_all (lit "td") row)) then []
                else [date_warning W (find_all (lit "td") row)]).
Proof.
  intro H. split.
  - rewrite row_step_returns in H. congruence.
  - rewrite row_step_eval in H. cbn zeta in H.
    destruct (find (lit "th") row); [discriminate|].
    destruct (find_all (lit "td") row) as [|c0 [|c1 [|c2 [|c3 rest]]]]; try discriminate.
    destruct (is_marker (cell_text W c0)); [discriminate|].
    destruct (absolutized W page_url _) as [u|e]; [|discriminate].
    congruence.
Qed.

Lemma in_emitted rows r :
  In r (emitted W page_url rows) <->
  exists row, In row rows /\ row_record W page_url row = Some r.
Proof.
  unfold emitted. rewrite in_flat_map. split.
  - intros [row [Hin Hr]]. exists row. split; trivial.
    destruct (row_record W page_url row) as [r'|]; [|contradiction].
    destruct Hr as [->|[]]. reflexivity.
  - intros [row [Hin Hr]]. exists row. split; trivial.
    rewrite Hr. now left.
Qed.

(** A pinned row is passed over. *)
Lemma pinned_row_step row l : pinned W row -> row_step W page_url row l = (Ok None, l).
Proof.
  intros [first [rest [Hcells Hm]]].
  rewrite row_step_eval. cbn zeta. rewrite Hcells.
  destruct (find (lit "th") row); [reflexivity|].
  destruct rest as [|c1 [|c2 [|c3 rest]]]; try reflexivity.
  assert (Hmark : is_marker (cell_text W first) = true).
  { unfold is_marker. destruct Hm as [-> | ->].
    - now rewrite str_eqb_refl.
    - rewrite str_eqb_refl. apply orb_true_r. }
  now rewrite Hmark.
Qed.

(** A header row and a row of fewer than four cells are passed over. *)
Lemma header_or_short_row_step row l :
  List.length (find_all (lit "td") row) < 4 \/ find (lit "th") row <> None ->
  row_step W page_url row l = (Ok None, l).
Proof.
  intro Hrow. unfold row_step.
  destruct (find (lit "th") row) as [th|]; [reflexivity|].
  destruct Hrow as [Hlen | Hth]; [|congruence].
  apply Nat.ltb_lt in Hlen. now rewrite Hlen.
Qed.

Lemma row_record_of_step row o l :
  row_step W page_url row [] = (Ok o, l) -> row_record W page_url row = o.
Proof. intro H. unfold row_record, run. now rewrite H. Qed.

End RowEval.

(* ================================================================== *)
(** ** The model on the sample pages *)

Section Tests.
Import Sample Py.

Example test_listing :
  crawl_school_letters (serving listing) page_url None []
  = (Ok listing_envelope, listing_log).
Proof. vm_compute. reflexivity. Qed.

Example test_refused :
  crawl_school_letters (failing connection_error) page_url None []
  = (Ok refused_envelope,
     [mk_record INFO (CrawlerStart (lit "school.example"));
      mk_record ERROR (RequestError (lit "Connection refused"))]).
Proof. vm_compute. reflexivity. Qed.

Example test_no_table :
  run (crawl_school_letters (serving (Html.Elem (lit "[document]") [] []))
         page_url (Some (lit "site")))
  = Ok (failure (serving (Html.Elem (lit "[document]") [] [])) (lit "site")
          page_url table_not_found_msg).
Proof. vm_compute. reflexivity. Qed.

Example test_unparsable :
  run (crawl_school_letters
         (unparsable (mk_exn OtherException (lit "bad markup")))
         page_url (Some (lit "site")))
  = Ok (failure (serving listing) (lit "site") page_url
          (lit "HTML 파싱 오류: bad markup")).
Proof. vm_compute. reflexivity. Qed.

Example test_site_name :
  resolve_site_name (lit "https://www.school.example/a/b") None
  = lit "school.example"
  /\ resolve_site_name (lit "no scheme here") (Some []) = lit "unknown_site"
  /\ resolve_site_name (lit "http://www.") None = lit "www."
  /\ resolve_site_name (lit "https://school.example?mi=1") None
     = lit "school.example?mi=1".
Proof. vm_compute. auto. Qed.

Example test_search_date :
  Re.search_date database (lit "x12024.03.15y") = Some (lit "2024.03.15")
  /\ Re.search_date database (lit "2024.3.15") = None
  /\ Re.search_date database (lit "on ２０２４.０１.１０")
     = Some (lit "２０２４.０１.１０").
Proof. vm_compute. auto. Qed.

Example test_quoted_digits :
  Re.search_quoted_digits database (lit "fn('12345')") = Some (lit "12345")
  /\ Re.search_quoted_digits database (lit "fn('a12', 7)") = None
  /\ Re.search_quoted_digits database (lit "fn_view('１２３')")
     = Some (lit "１２３").
Proof. vm_compute. auto. Qed.

(** A cell containing [2024.03.15] anywhere in its text. *)
Example test_date_anywhere :
  option_map date
    (row_record (serving listing) page_url
       (el "tr" [td "9"; td "Title"; td "author";
                 td "posted 2024.03.15 (edited)"]))
  = Some (lit "2024-03-15").
Proof. vm_compute. reflexivity. Qed.

Example test_onclick_row :
  option_map url (row_record (serving listing) page_url onclick_row)
  = Some (lit "https://school.example/ocheonhs/na/ntt/selectNttView.do?mi=159125&bbsId=76556&nttSn=12345").
Proof. vm_compute. reflexivity. Qed.

(** A date in fullwidth digits is found and normalised, its digits kept. *)
Example test_fullwidth_date :
  option_map date (row_record (serving listing) page_url fullwidth_row)
  = Some (lit "２０２４-０１-１０")
  /\ row_log (serving listing) page_url fullwidth_row = [].
Proof. vm_compute. auto. Qed.

(** A marker padded with no-break and ideographic spaces is a marker. *)
Example test_padded_marker :
  row_step (serving listing) page_url padded_pinned_row [] = (Ok None, []).
Proof. vm_compute. reflexivity. Qed.

(** A slice counts code points: three Korean syllables are three
    characters. *)
Example test_slice :
  firstn 2 (lit "가정통") = lit "가정" /\ List.length (lit "가정통") = 3.
Proof. vm_compute. auto. Qed.

End Tests.

(* ================================================================== *)
(** ** The call never fails silently: C1, C2, C3 *)

Section EnvelopeClaims.
Import Str Re Html Py.

Lemma call_outcome_failed W page_url site_name env :
  call_outcome W page_url site_name env ->
  (call_failed W page_url -> letters env = [] /\ error (meta env) <> None)
  /\ (error (meta env) <> None -> call_failed W page_url).
Proof.
  unfold call_failed.
  destruct 1 as [e Hget Hkind | response e Hget Hparse
                 | response soup msg Hget Hparse Htb Hmsg
                 | response soup tbody Hget Hparse Htb];
    rewrite Hget; try rewrite Hparse; cbn; split; intros; try split;
    trivial; try discriminate; try congruence.
Qed.

(** C1, as it holds. Provided the HTTP client raises nothing outside the
    [RequestException] family, the only one the guard of the fetch
    catches, the call returns an envelope for every URL and site name,
    and every failure (of the fetch, of the parse, of the table search)
    gives an envelope with no letters and with [error] set. *)
Theorem C1_returns_envelope W page_url site_name l :
  (forall e, requests_get W page_url = Raise e ->
             exn_kind e = RequestException) ->
  exists env l',
    crawl_school_letters W page_url site_name l = (Ok env, l')
    /\ (call_failed W page_url ->
        letters env = [] /\ error (meta env) <> None).
Proof.
  intro Hreq.
  destruct (crawl_returns W page_url site_name l Hreq) as [env [l' E]].
  exists env, l'. split; [exact E|].
  apply crawl_outcome in E.
  apply (call_outcome_failed _ _ _ _ E).
Qed.

Lemma C1_returns_envelope_witness :
  exists env l',
    crawl_school_letters (Sample.failing Sample.connection_error)
      Sample.page_url None [] = (Ok env, l')
    /\ (call_failed (Sample.failing Sample.connection_error) Sample.page_url ->
        letters env = [] /\ error (meta env) <> None).
Proof.
  apply (C1_returns_envelope (Sample.failing Sample.connection_error)
           Sample.page_url None []).
  intros e H. simpl in H. injection H as <-. reflexivity.
Defined.

(** C1, as stated, fails: when the HTTP client raises an exception that
    is not a [RequestException], the call raises it to the caller. *)
Lemma C1_counterexample :
  fst (crawl_school_letters (Sample.failing Sample.location_parse_error)
         Sample.page_url None [])
  = Raise Sample.location_parse_error
  /\ ~ (exists env l',
          crawl_school_letters (Sample.failing Sample.location_parse_error)
            Sample.page_url None [] = (Ok env, l')).
Proof.
  split.
  - vm_compute. reflexivity.
  - intros [env [l' H]]. vm_compute in H. discriminate H.
Qed.

(** C2. In a returned envelope [error] is present exactly when the call
    failed at the fetch, at the parse or at the table search. Once the
    fetch succeeded and a table body was located it is absent, and
    [letters] holds the record of every row that has one, in row order:
    a row whose processing raises is dropped and the rows after it are
    still processed. *)
Theorem C2_error_iff_call_failed W page_url site_name l env l' :
  crawl_school_letters W page_url site_name l = (Ok env, l') ->
  (error (meta env) <> None <-> call_failed W page_url)
  /\ (forall response soup tbody,
        requests_get W page_url = Ok response ->
        html_parser W response = Ok soup ->
        find_tbody W soup = Some tbody ->
        error (meta env) = None
        /\ letters env = emitted W page_url (find_all (lit "tr") tbody))
  /\ (forall row e,
        run (row_try W page_url row (find_all (lit "td") row)) = Raise e ->
        row_record W page_url row = None).
Proof.
  intro E. apply crawl_outcome in E.
  split; [|split].
  - split.
    + apply (call_outcome_failed _ _ _ _ E).
    + intro Hf. apply (call_outcome_failed _ _ _ _ E). exact Hf.
  - intros response soup tbody Hget Hparse Htb.
    destruct E as [e Hget' Hkind | response' e Hget' Hparse'
                   | response' soup' msg Hget' Hparse' Htb' Hmsg
                   | response' soup' tbody' Hget' Hparse' Htb'];
      try congruence.
    assert (response' = response) by congruence. subst.
    assert (soup' = soup) by congruence. subst.
    assert (tbody' = tbody) by congruence. subst.
    split; reflexivity.
  - intros row e Hraise.
    unfold row_record, run, row_step.
    destruct (find (lit "th") row); [reflexivity|].
    destruct (List.length (find_all (lit "td") row) <? 4); [reflexivity|].
    unfold try_except. unfold run in Hraise.
    destruct (row_try W page_url row (find_all (lit "td") row) []) as [[o|e'] l0];
      cbn in Hraise; [discriminate|].
    reflexivity.
Qed.

Lemma C2_error_iff_call_failed_witness :
  (error (meta Sample.listing_envelope) <> None
   <-> call_failed (Sample.serving Sample.listing) Sample.page_url)
  /\ (forall response soup tbody,
        requests_get (Sample.serving Sample.listing) Sample.page_url = Ok response ->
        html_parser (Sample.serving Sample.listing) response = Ok soup ->
        find_tbody (Sample.serving Sample.listing) soup = Some tbody ->
        error (meta Sample.listing_envelope) = None
        /\ letters Sample.listing_envelope
           = emitted (Sample.serving Sample.listing) Sample.page_url
               (find_all (lit "tr") tbody))
  /\ (forall row e,
        run (row_try (Sample.serving Sample.listing) Sample.page_url row
               (find_all (lit "td") row)) = Raise e ->
        row_record (Sample.serving Sample.listing) Sample.page_url row = None).
Proof.
  apply (C2_error_iff_call_failed (Sample.serving Sample.listing)
           Sample.page_url None [] Sample.listing_envelope Sample.listing_log).
  vm_compute. reflexivity.
Defined.

(** C3. In every returned envelope, whichever way the call went,
    [total_count] is the length of [letters]. *)
Theorem C3_total_count W page_url site_name l env l' :
  crawl_school_letters W page_url site_name l = (Ok env, l') ->
  total_count (meta env) = List.length (letters env).
Proof.
  intro E. apply crawl_outcome in E.
  destruct E; reflexivity.
Qed.

Lemma C3_total_count_witness :
  total_count (meta Sample.listing_envelope)
  = List.length (letters Sample.listing_envelope).
Proof.
  apply (C3_total_count (Sample.serving Sample.listing)
           Sample.page_url None [] Sample.listing_envelope Sample.listing_log).
  vm_compute. reflexivity.
Defined.

End EnvelopeClaims.

(* ================================================================== *)
(** ** The rows: C4 to C10 *)

Section RowClaims.
Import Str Re Html Py.

(** Where the title cell is found by its class and the anchor carries a
    non-empty [onclick], a script-triggered link is replaced: by the
    detail link of the first quoted run of digits, joined to the page
    URL, or by the empty string when there is none. *)
Lemma javascript_link_recovered W page_url row r title_cell title_link :
  row_record W page_url row = Some r ->
  find_class (unicode W) (lit "td") (lit "ta_l") row = Some title_cell ->
  find (lit "a") title_cell = Some title_link ->
  startswith (lit "javascript:") (node_get (lit "href") title_link) = true ->
  truthy (node_get (lit "onclick") title_link) = true ->
  match search_quoted_digits (unicode W) (node_get (lit "onclick") title_link) with
  | Some ntt_sn => urljoin W page_url (detail_link ntt_sn) = Ok (url r)
  | None => url r = []
  end.
Proof.
  intros Hr Hcell Hlink Hjs Honclick.
  apply row_record_inv in Hr. cbn zeta in Hr.
  destruct Hr as [_ [_ [_ [u [Ha ->]]]]].
  cbn [url record_of].
  unfold resolved_link, javascript_link in Ha.
  rewrite Hcell, Hlink, Hjs, Honclick in Ha.
  destruct (search_quoted_digits (unicode W) (node_get (lit "onclick") title_link))
    as [d|].
  - rewrite absolutized_relative in Ha by (vm_compute; reflexivity).
    exact Ha.
  - unfold absolutized in Ha. cbn [truthy andb] in Ha. now injection Ha as <-.
Qed.

(** C4, on the code. A script-triggered link is kept as the record's
    [url] in two cases the claim covers: in a [td.ta_l] cell when the
    anchor has no [onclick] (no quoted number, yet [url] is not empty),
    and in a title cell found as the second cell, where a quoted number
    in [onclick] is not looked for. *)
Theorem C4_script_link_kept :
  option_map url
    (row_record (Sample.serving Sample.listing) Sample.page_url Sample.script_row)
  = Some (lit "javascript:void(0)")
  /\ search_quoted_digits Sample.database
       (node_get (lit "onclick")
          (Sample.el_with "a" [("href", "javascript:void(0)");
                               ("onclick", "fn_view('12345')")]%string
             [Sample.txt "Notice C"]))
     = Some (lit "12345")
  /\ option_map url
       (row_record (Sample.serving Sample.listing) Sample.page_url
          Sample.plain_script_row)
     = Some (lit "javascript:void(0)").
Proof. vm_compute. repeat split. Qed.

(** C5. For every emitted row the cell at index 3 exists. When its text
    holds a token [digit{4}.digit{2}.digit{2}], the date is the token
    that starts first in it, with dashes for the dots. Otherwise the date
    is made in the same way from the first cell, in order, that holds a
    token. When no cell holds a token the date is empty and the warning is
    written to the log. *)
Theorem C5_date_recovery W page_url row l r l' :
  row_step W page_url row l = (Ok (Some r), l') ->
  exists date_cell,
    nth_error (find_all (lit "td") row) 3 = Some date_cell
    /\ ((exists y m d,
           leftmost_token (unicode W) (cell_text W date_cell) y m d
           /\ date r = dashed y m d)
        \/ (~ holds_token (unicode W) (cell_text W date_cell)
            /\ exists before cell after y m d,
                 find_all (lit "td") row = before ++ cell :: after
                 /\ (forall c, In c before ->
                               ~ holds_token (unicode W) (cell_text W c))
                 /\ leftmost_token (unicode W) (cell_text W cell) y m d
                 /\ date r = dashed y m d)
        \/ ((forall c, In c (find_all (lit "td") row) ->
                       ~ holds_token (unicode W) (cell_text W c))
            /\ date r = []
            /\ l' = l ++ [date_warning W (find_all (lit "td") row)])).
Proof.
  intro H.
  apply row_step_emits in H. destruct H as [Hr Hl'].
  apply row_record_inv in Hr. cbn zeta in Hr.
  destruct Hr as [_ [Hlen [_ [u [_ ->]]]]].
  set (cells := find_all (lit "td") row) in *.
  destruct (nth_error cells 3) as [date_cell|] eqn:E3.
  2:{ apply nth_error_None in E3. lia. }
  exists date_cell. split; [reflexivity|].
  cbn [date record_of]. unfold date_text_of in *. rewrite E3 in *.
  assert (Hdashed : forall s tok,
            search_date (unicode W) s = Some tok ->
            exists y m d, leftmost_token (unicode W) s y m d
                          /\ format_date W tok = dashed y m d).
  { intros s tok Hs. rewrite (format_date_token W s tok Hs).
    apply (search_date_leftmost W) in Hs.
    destruct Hs as [y [m [d [-> Hleft]]]]. exists y, m, d. split; trivial.
    destruct Hleft as [pre [[Hp _] _]]. now apply (replace_dotted W). }
  destruct (search_date (unicode W) (cell_text W date_cell)) as [tok|] eqn:Ed.
  - left. apply (Hdashed _ _ Ed).
  - right. apply (search_date_none_iff W) in Ed.
    destruct (first_date W cells) as [tok|] eqn:Ef.
    + left. split; trivial.
      apply first_date_split in Ef.
      destruct Ef as [before [cell [after [Hcells [Hb Hc]]]]].
      destruct (Hdashed _ _ Hc) as [y [m [d [Hleft Hdate]]]].
      exists before, cell, after, y, m, d. repeat split; trivial.
      intros c Hin. apply (search_date_none_iff W). now apply Hb.
    + right. repeat split; trivial.
      intros c Hin. apply (search_date_none_iff W).
      rewrite first_date_none_iff in Ef. now apply Ef.
Qed.

Lemma C5_date_recovery_witness :
  exists date_cell,
    nth_error (find_all (lit "td") Sample.fullwidth_row) 3 = Some date_cell
    /\ ((exists y m d,
           leftmost_token Sample.database
             (cell_text (Sample.serving Sample.listing) date_cell) y m d
           /\ lit "２０２４-０１-１０" = dashed y m d)
        \/ (~ holds_token Sample.database
                (cell_text (Sample.serving Sample.listing) date_cell)
            /\ exists before cell after y m d,
                 find_all (lit "td") Sample.fullwidth_row
                 = before ++ cell :: after
                 /\ (forall c, In c before ->
                       ~ holds_token Sample.database
                           (cell_text (Sample.serving Sample.listing) c))
                 /\ leftmost_token Sample.database
                      (cell_text (Sample.serving Sample.listing) cell) y m d
                 /\ lit "２０２４-０１-１０" = dashed y m d)
        \/ ((forall c, In c (find_all (lit "td") Sample.fullwidth_row) ->
               ~ holds_token Sample.database
                   (cell_text (Sample.serving Sample.listing) c))
            /\ lit "２０２４-０１-１０" = []
            /\ @nil log_record
               = [] ++ [date_warning (Sample.serving Sample.listing)
                          (find_all (lit "td") Sample.fullwidth_row)])).
Proof.
  apply (C5_date_recovery (Sample.serving Sample.listing) Sample.page_url
           Sample.fullwidth_row []
           {| number := lit "9"; title := lit "Fullwidth"; author := [];
              date := lit "２０２４-０１-１０"; views := lit "0"; url := [];
              has_attachment := false |}
           []).
  vm_compute. reflexivity.
Defined.

(** C7. No record of a returned envelope has one of the two markers of a
    pinned row as its [number]; a row whose first cell reads as a marker
    is passed over: no record, nothing written. *)
Theorem C7_pinned_rows_skipped W page_url site_name l env l' :
  crawl_school_letters W page_url site_name l = (Ok env, l') ->
  (forall r, In r (letters env) ->
             number r <> notice_marker /\ number r <> integrated_notice_marker)
  /\ (forall row l0, pinned W row -> row_step W page_url row l0 = (Ok None, l0)).
Proof.
  intro E. split.
  - intros r Hin. apply crawl_outcome in E.
    destruct E as [e Hget Hkind | response e Hget Hparse
                   | response soup msg Hget Hparse Htb Hmsg
                   | response soup tbody Hget Hparse Htb];
      try contradiction.
    cbn in Hin. apply in_emitted in Hin. destruct Hin as [row [_ Hr]].
    apply row_record_inv in Hr. cbn zeta in Hr.
    destruct Hr as [_ [_ [[c0 [rest [Hcells Hm]]] [u [_ ->]]]]].
    unfold record_of, number. rewrite Hcells.
    unfold is_marker in Hm. apply orb_false_elim in Hm. destruct Hm as [Hn Hi].
    apply str_eqb_neq in Hn. apply str_eqb_neq in Hi. now split.
  - intros row l0 Hp. now apply pinned_row_step.
Qed.

Lemma C7_pinned_rows_skipped_witness :
  (forall r, In r (letters Sample.listing_envelope) ->
             number r <> notice_marker /\ number r <> integrated_notice_marker)
  /\ (forall row l0, pinned (Sample.serving Sample.listing) row ->
        row_step (Sample.serving Sample.listing) Sample.page_url row l0
        = (Ok None, l0)).
Proof.
  apply (C7_pinned_rows_skipped (Sample.serving Sample.listing)
           Sample.page_url None [] Sample.listing_envelope Sample.listing_log).
  vm_compute. reflexivity.
Defined.

(** C8. A row with fewer than four [td] cells, or with a [th] cell, is
    passed over; every record of a returned envelope comes from a row of
    the located table body that has at least four [td] cells and no [th]
    cell. *)
Theorem C8_short_and_header_rows_skipped W page_url site_name l env l' :
  crawl_school_letters W page_url site_name l = (Ok env, l') ->
  (forall row l0,
      List.length (find_all (lit "td") row) < 4 \/ find (lit "th") row <> None ->
      row_step W page_url row l0 = (Ok None, l0))
  /\ (forall r, In r (letters env) ->
        exists response soup tbody row,
          requests_get W page_url = Ok response
          /\ html_parser W response = Ok soup
          /\ find_tbody W soup = Some tbody
          /\ In row (find_all (lit "tr") tbody)
          /\ row_record W page_url row = Some r
          /\ 4 <= List.length (find_all (lit "td") row)
          /\ find (lit "th") row = None).
Proof.
  intro E. split.
  - intros row l0 Hrow. now apply header_or_short_row_step.
  - intros r Hin. apply crawl_outcome in E.
    destruct E as [e Hget Hkind | response e Hget Hparse
                   | response soup msg Hget Hparse Htb Hmsg
                   | response soup tbody Hget Hparse Htb];
      try contradiction.
    cbn in Hin. apply in_emitted in Hin. destruct Hin as [row [Hrow Hr]].
    exists response, soup, tbody, row.
    pose proof (row_record_inv _ _ _ _ Hr) as Hinv. cbn zeta in Hinv.
    destruct Hinv as [Hth [Hlen _]].
    repeat split; assumption.
Qed.

Lemma C8_short_and_header_rows_skipped_witness :
  (forall row l0,
      List.length (find_all (lit "td") row) < 4 \/ find (lit "th") row <> None ->
      row_step (Sample.serving Sample.listing) Sample.page_url row l0
      = (Ok None, l0))
  /\ (forall r, In r (letters Sample.listing_envelope) ->
        exists response soup tbody row,
          requests_get (Sample.serving Sample.listing) Sample.page_url = Ok response
          /\ html_parser (Sample.serving Sample.listing) response = Ok soup
          /\ find_tbody (Sample.serving Sample.listing) soup = Some tbody
          /\ In row (find_all (lit "tr") tbody)
          /\ row_record (Sample.serving Sample.listing) Sample.page_url row = Some r
          /\ 4 <= List.length (find_all (lit "td") row)
          /\ find (lit "th") row = None).
Proof.
  apply (C8_short_and_header_rows_skipped (Sample.serving Sample.listing)
           Sample.page_url None [] Sample.listing_envelope Sample.listing_log).
  vm_compute. reflexivity.
Defined.

(** The data row of the scenario contributes its record once its link
    is joined. *)
Lemma scenario_row_record W page_url u :
  urljoin W page_url (lit "/view?id=9") = Ok u ->
  row_record W page_url Sample.data_row
  = Some {| number := lit "1"; title := lit "Notice A"; author := [];
            date := lit "2024-01-10"; views := lit "0"; url := u;
            has_attachment := false |}.
Proof.
  intro Hjoin.
  rewrite (row_record_intro W page_url Sample.data_row u).
  - apply (f_equal Some). vm_compute. reflexivity.
  - vm_compute. reflexivity.
  - vm_compute. lia.
  - exists (Sample.td "1"),
           [Sample.el "td"
              [Sample.el_with "a" [("href", "/view?id=9")]%string
                 [Sample.txt "Notice A"]];
            Sample.td "author"; Sample.td "2024.01.10"].
    split; vm_compute; reflexivity.
  - replace (resolved_link W Sample.data_row
               (find_all (lit "td") Sample.data_row))
      with (lit "/view?id=9") by (vm_compute; reflexivity).
    rewrite absolutized_relative by (vm_compute; reflexivity).
    exact Hjoin.
Qed.

(** C6. When the located table body holds exactly a header row, a pinned
    row and the data row
    [["1"; <a href='/view?id=9'>Notice A</a>; "author"; "2024.01.10"]],
    and the link is joined to the page URL as [u], the call returns the
    single record
    [{number "1"; title "Notice A"; author ""; date "2024-01-10";
      views "0"; url u; has_attachment false}] and [total_count] 1. *)
Theorem C6_end_to_end W page_url site_name l response soup tbody
        header_row pinned_row u :
  requests_get W page_url = Ok response ->
  html_parser W response = Ok soup ->
  find_tbody W soup = Some tbody ->
  find_all (lit "tr") tbody = [header_row; pinned_row; Sample.data_row] ->
  find (lit "th") header_row <> None ->
  pinned W pinned_row ->
  urljoin W page_url (lit "/view?id=9") = Ok u ->
  exists env l',
    crawl_school_letters W page_url site_name l = (Ok env, l')
    /\ letters env
       = [{| number := lit "1"; title := lit "Notice A"; author := [];
             date := lit "2024-01-10"; views := lit "0"; url := u;
             has_attachment := false |}]
    /\ total_count (meta env) = 1.
Proof.
  intros Hget Hparse Htb Hrows Hth Hpin Hjoin.
  destruct (crawl_returns W page_url site_name l) as [env [l' E]].
  { intros e He. congruence. }
  exists env, l'. split; [exact E|].
  apply crawl_outcome in E.
  destruct E as [e Hget' Hkind | response' e Hget' Hparse'
                 | response' soup' msg Hget' Hparse' Htb' Hmsg
                 | response' soup' tbody' Hget' Hparse' Htb'];
    try congruence.
  assert (response' = response) by congruence. subst.
  assert (soup' = soup) by congruence. subst.
  assert (tbody' = tbody) by congruence. subst.
  assert (Hem : emitted W page_url (find_all (lit "tr") tbody)
                = [{| number := lit "1"; title := lit "Notice A"; author := [];
                      date := lit "2024-01-10"; views := lit "0"; url := u;
                      has_attachment := false |}]).
  { rewrite Hrows. unfold emitted. cbn [flat_map].
    rewrite (row_record_of_step W page_url header_row None []
               (header_or_short_row_step W page_url header_row [] (or_intror Hth))).
    rewrite (row_record_of_step W page_url pinned_row None []
               (pinned_row_step W page_url pinned_row [] Hpin)).
    rewrite (scenario_row_record W page_url u Hjoin). reflexivity. }
  unfold success. cbn [letters meta total_count]. rewrite Hem.
  split; reflexivity.
Qed.

Lemma C6_end_to_end_witness :
  exists env l',
    crawl_school_letters
      (Sample.serving
         (Sample.wrap [Sample.header_row; Sample.pinned_row; Sample.data_row]))
      Sample.page_url None [] = (Ok env, l')
    /\ letters env
       = [{| number := lit "1"; title := lit "Notice A"; author := [];
             date := lit "2024-01-10"; views := lit "0";
             url := lit "https://school.example/view?id=9";
             has_attachment := false |}]
    /\ total_count (meta env) = 1.
Proof.
  apply (C6_end_to_end
           (Sample.serving
              (Sample.wrap [Sample.header_row; Sample.pinned_row; Sample.data_row]))
           Sample.page_url None [] (lit "<html>")
           (Sample.wrap [Sample.header_row; Sample.pinned_row; Sample.data_row])
           (Sample.el "tbody" [Sample.header_row; Sample.pinned_row; Sample.data_row])
           Sample.header_row Sample.pinned_row
           (lit "https://school.example/view?id=9")).
  - reflexivity.
  - reflexivity.
  - vm_compute. reflexivity.
  - vm_compute. reflexivity.
  - vm_compute. discriminate.
  - exists (Sample.td "공지"),
           [Sample.td "Pinned"; Sample.td "admin"; Sample.td "2024.01.02"].
    split; [vm_compute; reflexivity | left; vm_compute; reflexivity].
  - vm_compute. reflexivity.
Defined.

(** C9, as it holds. For every emitted record whose link, after the
    JavaScript handling, is not empty: when the link does not begin with
    the letters http, the record's [url] is the link joined to the page
    URL; when it begins with them, the [url] is the link unchanged. *)
Theorem C9_link_resolution W page_url row r :
  row_record W page_url row = Some r ->
  resolved_link W row (find_all (lit "td") row) <> [] ->
  if startswith (lit "http") (resolved_link W row (find_all (lit "td") row))
  then url r = resolved_link W row (find_all (lit "td") row)
  else urljoin W page_url (resolved_link W row (find_all (lit "td") row))
       = Ok (url r).
Proof.
  intros Hr Hne.
  apply row_record_inv in Hr. cbn zeta in Hr.
  destruct Hr as [_ [_ [_ [u [Ha ->]]]]].
  unfold absolutized in Ha. cbn [url record_of].
  set (link := resolved_link W row (find_all (lit "td") row)) in *.
  assert (Ht : truthy link = true) by (destruct link; [congruence | reflexivity]).
  rewrite Ht in Ha.
  destruct (startswith (lit "http") link); cbn in Ha.
  - now injection Ha as <-.
  - exact Ha.
Qed.

Lemma C9_link_resolution_witness :
  if startswith (lit "http")
       (resolved_link (Sample.serving Sample.listing) Sample.data_row
          (find_all (lit "td") Sample.data_row))
  then url Sample.notice_a
       = resolved_link (Sample.serving Sample.listing) Sample.data_row
           (find_all (lit "td") Sample.data_row)
  else urljoin (Sample.serving Sample.listing) Sample.page_url
         (resolved_link (Sample.serving Sample.listing) Sample.data_row
            (find_all (lit "td") Sample.data_row))
       = Ok (url Sample.notice_a).
Proof.
  apply (C9_link_resolution (Sample.serving Sample.listing) Sample.page_url
           Sample.data_row Sample.notice_a).
  - vm_compute. reflexivity.
  - vm_compute. discriminate.
Defined.

(** C9, as stated, fails: a relative link whose path begins with the
    letters http has no scheme, so it is not absolute, yet it is kept as
    it is instead of being joined to the page URL. *)
Lemma C9_counterexample :
  resolved_link (Sample.serving Sample.listing) Sample.http_path_row
    (find_all (lit "td") Sample.http_path_row)
  = lit "httpdocs/notice.html"
  /\ is_absolute_url (lit "httpdocs/notice.html") = false
  /\ urljoin (Sample.serving Sample.listing) Sample.page_url
       (lit "httpdocs/notice.html")
     = Ok (lit "https://school.example/board/httpdocs/notice.html")
  /\ option_map url
       (row_record (Sample.serving Sample.listing) Sample.page_url
          Sample.http_path_row)
     = Some (lit "httpdocs/notice.html").
Proof. vm_compute. auto. Qed.

(** C10. The date of every emitted record is empty or has exactly the
    shape [digit{4}-digit{2}-digit{2}], a digit being whatever the pattern
    takes for one; every token the search finds passes the normalisation
    test, so none is kept with its dots. *)
Theorem C10_date_shape W page_url row r :
  row_record W page_url row = Some r ->
  (date r = [] \/ is_dashed_date (unicode W) (date r) = true)
  /\ (forall text token,
        search_date (unicode W) text = Some token ->
        format_date W token = replace_dot_dash token).
Proof.
  intro Hr. split.
  - apply row_record_inv in Hr. cbn zeta in Hr.
    destruct Hr as [_ [_ [_ [u [_ ->]]]]].
    cbn [date record_of]. apply format_date_text_shape.
  - intros text token. apply format_date_token.
Qed.

Lemma C10_date_shape_witness :
  (lit "２０２４-０１-１０" = []
   \/ is_dashed_date Sample.database (lit "２０２４-０１-１０") = true)
  /\ (forall text token,
        search_date Sample.database text = Some token ->
        format_date (Sample.serving Sample.listing) token
        = replace_dot_dash token).
Proof.
  apply (C10_date_shape (Sample.serving Sample.listing) Sample.page_url
           Sample.fullwidth_row
           {| number := lit "9"; title := lit "Fullwidth"; author := [];
              date := lit "２０２４-０１-１０"; views := lit "0"; url := [];
              has_attachment := false |}).
  vm_compute. reflexivity.
Defined.

End RowClaims.

(* ================================================================== *)
(** ** The site name and the metadata of the envelope *)

Section SiteName.
Import Str Re Py.

Lemma startswith_app p r : startswith p (p ++ r) = true.
Proof.
  induction p as [|c p IH]; cbn [startswith app]; [reflexivity|].
  now rewrite N.eqb_refl, IH.
Qed.

Lemma skipn_length_app (p r : str) : skipn (List.length p) (p ++ r) = r.
Proof. induction p as [|c p IH]; cbn; [reflexivity | exact IH]. Qed.

(** Dropping a prefix gives back what follows it. *)
Lemma drop_prefix_app p r : drop_prefix p (p ++ r) = Some r.
Proof.
  unfold drop_prefix. now rewrite startswith_app, skipn_length_app.
Qed.

Lemma drop_prefix_inv p s r : drop_prefix p s = Some r -> s = p ++ r.
Proof.
  unfold drop_prefix.
  destruct (startswith p s) eqn:E; [|discriminate].
  intros [= <-]. revert s E.
  induction p as [|c p IH]; intros s E; cbn.
  - reflexivity.
  - destruct s as [|c' s]; [discriminate|]. cbn in E.
    apply andb_prop in E. destruct E as [Ec E].
    apply N.eqb_eq in Ec. subst c'. f_equal. now apply IH.
Qed.

Lemma span_not_slash_up_to stretch tail :
  no_slash stretch = true -> path_tail tail ->
  span_not_slash (stretch ++ tail) = stretch.
Proof.
  intros Hh Ht. induction stretch as [|c stretch IH]; cbn [app span_not_slash].
  - destruct Ht as [-> | [rest ->]]; [reflexivity|].
    cbn [span_not_slash]. now rewrite N.eqb_refl.
  - cbn [no_slash] in Hh. apply andb_prop in Hh. destruct Hh as [Hc Hh].
    apply negb_true_iff in Hc. rewrite Hc. f_equal. now apply IH.
Qed.

Lemma span_not_slash_clean s : no_slash (span_not_slash s) = true.
Proof.
  induction s as [|c s IH]; cbn [span_not_slash]; [reflexivity|].
  destruct (c =? chr "/")%N eqn:E; [reflexivity|].
  cbn [no_slash]. now rewrite E, IH.
Qed.

(** A slash-free prefix of [stretch ++ tail] lies within [stretch]. *)
Lemma startswith_within p stretch tail :
  no_slash p = true -> path_tail tail ->
  startswith p (stretch ++ tail) = true -> startswith p stretch = true.
Proof.
  revert stretch. induction p as [|c p IH]; intros stretch Hp Ht H.
  - reflexivity.
  - cbn [no_slash] in Hp. apply andb_prop in Hp. destruct Hp as [Hc Hp].
    apply negb_true_iff in Hc.
    destruct stretch as [|c' stretch]; cbn [app startswith] in H |- *.
    + destruct Ht as [-> | [rest ->]]; [discriminate|].
      cbn [startswith] in H. now rewrite Hc in H.
    + apply andb_prop in H. destruct H as [-> H]. now apply IH.
Qed.

Lemma search_site_head s g : match_site s = Some g -> search_site s = Some g.
Proof. intro H. destruct s; cbn [search_site]; now rewrite H. Qed.

(** The group of the pattern behind a scheme: what [match_site] tries on
    the text after the two slashes. *)
Lemma match_site_scheme scheme rest :
  scheme = lit "http://" \/ scheme = lit "https://" ->
  match_site (scheme ++ rest)
  = match
      match drop_prefix (lit "www.") rest with
      | Some h' =>
          match span_not_slash h' with
          | [] => None
          | g => Some g
          end
      | None => None
      end
    with
    | Some g => Some g
    | None =>
        match span_not_slash rest with
        | [] => None
        | g => Some g
        end
    end.
Proof.
  intros [-> | ->]; unfold match_site; cbv zeta.
  - replace (lit "http://" ++ rest) with (lit "http" ++ (lit "://" ++ rest))
      by (vm_compute; reflexivity).
    rewrite drop_prefix_app.
    replace (drop_prefix (lit "s") (lit "://" ++ rest)) with (@None str)
      by (vm_compute; reflexivity).
    rewrite (drop_prefix_app (lit "://") rest).
    destruct (match drop_prefix (lit "www.") rest with
              | Some h' => match span_not_slash h' with
                           | [] => None
                           | c :: g => Some (c :: g)
                           end
              | None => None
              end); [reflexivity|].
    destruct (span_not_slash rest); reflexivity.
  - replace (lit "https://" ++ rest)
      with (lit "http" ++ (lit "s" ++ (lit "://" ++ rest)))
      by (vm_compute; reflexivity).
    rewrite drop_prefix_app, drop_prefix_app.
    rewrite (drop_prefix_app (lit "://") rest).
    destruct (match drop_prefix (lit "www.") rest with
              | Some h' => match span_not_slash h' with
                           | [] => None
                           | c :: g => Some (c :: g)
                           end
              | None => None
              end); [reflexivity|].
    destruct (span_not_slash rest); [|reflexivity].
    replace (drop_prefix (lit "://") (lit "s" ++ lit "://" ++ rest))
      with (@None str) by (vm_compute; reflexivity).
    reflexivity.
Qed.

(** X1. Without a site name, or with an empty one, a URL that starts with
    [http://] or [https://] names the site by the stretch of text from the
    scheme to the first slash after it, or to the end of the URL when no
    slash follows: the stretch as it is when it does not begin with
    [www.], without the [www.] when something follows it, and [www.]
    itself when nothing does. The stretch is cut at a slash and nowhere
    else, so a user name, a port, a query or a fragment that stands before
    the first slash is part of the name: the name is the host only when
    the stretch holds nothing else. *)
Theorem site_name_up_to_slash scheme stretch tail site_name :
  scheme = lit "http://" \/ scheme = lit "https://" ->
  site_name = None \/ site_name = Some [] ->
  stretch <> [] -> no_slash stretch = true -> path_tail tail ->
  (startswith (lit "www.") stretch = false ->
   resolve_site_name (scheme ++ stretch ++ tail) site_name = stretch)
  /\ resolve_site_name (scheme ++ lit "www." ++ stretch ++ tail) site_name
     = stretch
  /\ resolve_site_name (scheme ++ lit "www." ++ tail) site_name = lit "www.".
Proof.
  intros Hs Hn Hne Hh Ht.
  assert (Hres : forall url,
            resolve_site_name url site_name
            = match search_site url with
              | Some g => g
              | None => lit "unknown_site"
              end).
  { intro url. destruct Hn as [-> | ->]; reflexivity. }
  assert (Hspan : span_not_slash (stretch ++ tail) = stretch)
    by now apply span_not_slash_up_to.
  repeat split.
  - intro Hw. rewrite Hres.
    rewrite (search_site_head _ stretch); [reflexivity|].
    rewrite (match_site_scheme scheme (stretch ++ tail) Hs).
    assert (Hd : drop_prefix (lit "www.") (stretch ++ tail) = None).
    { unfold drop_prefix.
      destruct (startswith (lit "www.") (stretch ++ tail)) eqn:E; [|reflexivity].
      apply (startswith_within (lit "www.") stretch tail) in E;
        [congruence | vm_compute; reflexivity | exact Ht]. }
    rewrite Hd, Hspan. destruct stretch; [congruence | reflexivity].
  - rewrite Hres.
    rewrite (search_site_head _ stretch); [reflexivity|].
    rewrite (match_site_scheme scheme (lit "www." ++ stretch ++ tail) Hs).
    rewrite (drop_prefix_app (lit "www.") (stretch ++ tail)), Hspan.
    destruct stretch; [congruence | reflexivity].
  - rewrite Hres.
    rewrite (search_site_head _ (lit "www.")); [reflexivity|].
    rewrite (match_site_scheme scheme (lit "www." ++ tail) Hs).
    rewrite (drop_prefix_app (lit "www.") tail).
    destruct Ht as [-> | [rest ->]]; vm_compute; reflexivity.
Qed.

Lemma site_name_up_to_slash_witness :
  (startswith (lit "www.") (lit "user@school.example:8080?mi=1") = false ->
   resolve_site_name
     (lit "https://" ++ lit "user@school.example:8080?mi=1" ++ lit "/a/b")
     None
   = lit "user@school.example:8080?mi=1")
  /\ resolve_site_name
       (lit "https://" ++ lit "www."
        ++ lit "user@school.example:8080?mi=1" ++ lit "/a/b") None
     = lit "user@school.example:8080?mi=1"
  /\ resolve_site_name (lit "https://" ++ lit "www." ++ lit "/a/b") None
     = lit "www.".
Proof.
  apply (site_name_up_to_slash (lit "https://")
           (lit "user@school.example:8080?mi=1") (lit "/a/b") None).
  - right. reflexivity.
  - left. reflexivity.
  - vm_compute. discriminate.
  - vm_compute. reflexivity.
  - right. exists (lit "a/b"). vm_compute. reflexivity.
Defined.

Lemma match_site_group s g :
  match_site s = Some g -> g <> [] /\ no_slash g = true.
Proof.
  unfold match_site. cbv zeta.
  destruct (drop_prefix (lit "http") s) as [r0|]; [|discriminate].
  assert (Hspan : forall h g0,
            match span_not_slash h with
            | [] => None
            | c :: g1 => Some (c :: g1)
            end = Some g0 -> g0 <> [] /\ no_slash g0 = true).
  { intros h g0 H. pose proof (span_not_slash_clean h) as Hc.
    destruct (span_not_slash h); [discriminate|].
    injection H as <-. split; [discriminate | exact Hc]. }
  assert (Hrest : forall r g0,
            match drop_prefix (lit "://") r with
            | Some h =>
                match
                  match drop_prefix (lit "www.") h with
                  | Some h' =>
                      match span_not_slash h' with
                      | [] => None
                      | c :: g1 => Some (c :: g1)
                      end
                  | None => None
                  end
                with
                | Some g1 => Some g1
                | None =>
                    match span_not_slash h with
                    | [] => None
                    | c :: g1 => Some (c :: g1)
                    end
                end
            | None => None
            end = Some g0 -> g0 <> [] /\ no_slash g0 = true).
  { intros r g0 H. destruct (drop_prefix (lit "://") r) as [h|]; [|discriminate].
    destruct (drop_prefix (lit "www.") h) as [h'|].
    - destruct (match span_not_slash h' with
                | [] => None
                | c :: g1 => Some (c :: g1)
                end) eqn:E.
      + injection H as <-. now apply (Hspan h').
      + now apply (Hspan h).
    - now apply (Hspan h). }
  intro H.
  match type of H with
  | match ?a with Some g1 => Some g1 | None => ?b end = _ =>
      destruct a eqn:Ea; [injection H as <-; now apply Hrest in Ea
                         | now apply Hrest in H]
  end.
Qed.

(** X2. The site name is never empty; when it is derived from the URL it
    holds no slash. *)
Theorem site_name_nonempty url :
  (forall site_name, resolve_site_name url site_name <> [])
  /\ no_slash (resolve_site_name url None) = true
  /\ no_slash (resolve_site_name url (Some [])) = true.
Proof.
  assert (Hs : match search_site url with
               | Some g => g
               | None => lit "unknown_site"
               end <> []
               /\ no_slash match search_site url with
                           | Some g => g
                           | None => lit "unknown_site"
                           end = true).
  { destruct (search_site url) as [g|] eqn:E;
      [|split; [vm_compute; discriminate | vm_compute; reflexivity]].
    revert E. induction url as [|c url IH]; cbn [search_site].
    - destruct (match_site []) eqn:Em; [|discriminate].
      intros [= <-]. now apply match_site_group in Em.
    - destruct (match_site (c :: url)) eqn:Em.
      + intros [= <-]. now apply match_site_group in Em.
      + exact IH. }
  split; [|split]; try apply Hs.
  intros [[|c s]|]; cbn [resolve_site_name]; try apply Hs. discriminate.
Qed.

(** X3. In every returned envelope, on every path, [source] is the resolved
    site name, [url] is the URL given and [last_updated] is the day of the
    call. *)
Theorem envelope_metadata W page_url site_name l env l' :
  crawl_school_letters W page_url site_name l = (Ok env, l') ->
  source (meta env) = resolve_site_name page_url site_name
  /\ meta_url (meta env) = page_url
  /\ last_updated (meta env) = today W.
Proof.
  intro E. apply crawl_outcome in E. destruct E; repeat split.
Qed.

Lemma envelope_metadata_witness :
  source (meta Sample.refused_envelope)
  = resolve_site_name Sample.page_url None
  /\ meta_url (meta Sample.refused_envelope) = Sample.page_url
  /\ last_updated (meta Sample.refused_envelope)
     = today (Sample.failing Sample.connection_error).
Proof.
  apply (envelope_metadata (Sample.failing Sample.connection_error)
           Sample.page_url None [] Sample.refused_envelope
           [start_record (lit "school.example");
            error_record (RequestError (lit "Connection refused"))]).
  vm_compute. reflexivity.
Defined.

End SiteName.

(* ================================================================== *)
(** ** Locating the table body *)

Section TableLocation.
Import Str Re Html Py.

(** Induction on a parse tree, with the hypothesis on every child. *)
Lemma node_induction (P : node -> Prop) :
  (forall s, P (Text s)) ->
  (forall name a cs, Forall P cs -> P (Elem name a cs)) ->
  forall n, P n.
Proof.
  intros HT HE.
  refine (fix IH (n : node) : P n :=
            match n with
            | Text s => HT s
            | Elem name a cs =>
                HE name a cs
                  ((fix go (l : list node) : Forall P l :=
                      match l with
                      | [] => Forall_nil P
                      | c :: l' => Forall_cons c (IH c) (go l')
                      end) cs)
            end).
Qed.

(** The nodes below a node do not depend on the ancestors recorded. *)
Lemma descendants_anc_nodes n : forall anc,
  map snd (descendants_anc anc n) = descendants n.
Proof.
  unfold descendants.
  induction n as [s | name a cs IH] using node_induction; intro anc.
  - reflexivity.
  - cbn [descendants_anc].
    generalize (Elem name a cs :: anc) as anc1.
    generalize (Elem name a cs :: @nil node) as anc2.
    induction IH as [|c l Hc Hl IHl]; intros anc2 anc1.
    + reflexivity.
    + cbn [map snd]. rewrite !map_app. rewrite (Hc anc1), (Hc anc2).
      f_equal. f_equal. apply IHl.
Qed.

(** The nodes below an element: each child, followed by what is below it. *)
Lemma descendants_elem name a cs :
  descendants (Elem name a cs) = flat_map (fun c => c :: descendants c) cs.
Proof.
  unfold descendants at 1. cbn [descendants_anc].
  generalize (Elem name a cs :: @nil node) as anc.
  induction cs as [|c l IH]; intro anc.
  - reflexivity.
  - cbn [map snd flat_map]. rewrite map_app, descendants_anc_nodes.
    cbn [app]. f_equal. f_equal. apply IH.
Qed.

Lemma descendants_trans n : forall x y,
  In x (descendants y) -> In y (descendants n) -> In x (descendants n).
Proof.
  induction n as [s | name a cs IH] using node_induction; intros x y Hx Hy.
  - contradiction.
  - rewrite descendants_elem in *. apply in_flat_map in Hy.
    destruct Hy as [c [Hc Hy]]. apply in_flat_map. exists c. split; trivial.
    rewrite Forall_forall in IH.
    destruct Hy as [-> | Hy].
    + now right.
    + right. now apply (IH c Hc x y).
Qed.

Lemma hd_filter_sound {A} (p : A -> bool) (l : list A) x :
  hd_error (filter p l) = Some x -> p x = true /\ In x l.
Proof.
  intro H.
  assert (Hin : In x (filter p l)).
  { destruct (filter p l); [discriminate|]. injection H as ->. now left. }
  apply filter_In in Hin. tauto.
Qed.

(** What [find] returns satisfies the test and lies below the node. *)
Lemma find_by_sound p n x :
  find_by p n = Some x -> p x = true /\ In x (descendants n).
Proof. apply hd_filter_sound. Qed.

Lemma find_by_none p n :
  find_by p n = None -> forall x, In x (descendants n) -> p x = false.
Proof.
  unfold find_by, find_all_by. intros H x Hin.
  destruct (p x) eqn:E; trivial.
  assert (Hf : In x (filter p (descendants n))) by (apply filter_In; tauto).
  destruct (filter p (descendants n)); [contradiction | discriminate].
Qed.

Lemma is_tag_class_tag U t c x : is_tag_class U t c x = true -> is_tag t x = true.
Proof.
  destruct x as [|name a cs]; cbn; [discriminate|].
  intro H. now apply andb_prop in H.
Qed.

Lemma select_one_sound W soup t :
  select_one_bd_list (unicode W) soup = Some t ->
  is_tag (lit "tbody") t = true /\ In t (descendants soup).
Proof.
  unfold select_one_bd_list.
  destruct (hd_error (filter (bd_list_path (unicode W)) (descendants_anc [] soup)))
    as [[anc x]|] eqn:E; [|discriminate].
  cbn. intros [= <-]. apply hd_filter_sound in E. destruct E as [Hp Hin].
  split.
  - cbn in Hp. destruct anc as [|t1 [|t2 [|t3 [|t4 anc]]]]; try discriminate.
    repeat (apply andb_prop in Hp; destruct Hp as [Hp ?]). exact Hp.
  - rewrite <- (descendants_anc_nodes soup []).
    apply (in_map snd) in Hin. exact Hin.
Qed.

Lemma table_tbody_sound soup table t :
  In table (descendants soup) -> find (lit "tbody") table = Some t ->
  is_tag (lit "tbody") t = true /\ In t (descendants soup).
Proof.
  intros Hin H. apply find_by_sound in H. destruct H as [Ht Hd].
  split; trivial. now apply (descendants_trans soup t table).
Qed.

(** What the scan of the tables accepts: the first body of one of the
    tables, with a first row that holds a [td]. *)
Lemma tbody_by_scan_sound tables t :
  tbody_by_scan tables = Some t ->
  exists table first_row rows cell cells,
    In table tables
    /\ find (lit "tbody") table = Some t
    /\ find_all (lit "tr") t = first_row :: rows
    /\ find_all (lit "td") first_row = cell :: cells.
Proof.
  induction tables as [|table rest IH]; cbn [tbody_by_scan]; [discriminate|].
  assert (Hrest : tbody_by_scan rest = Some t ->
    exists table0 first_row rows cell cells,
      In table0 (table :: rest)
      /\ find (lit "tbody") table0 = Some t
      /\ find_all (lit "tr") t = first_row :: rows
      /\ find_all (lit "td") first_row = cell :: cells).
  { intro H. destruct (IH H) as [tb [fr [rs [c [cs [Hin Hrest]]]]]].
    exists tb, fr, rs, c, cs. split; [now right | exact Hrest]. }
  destruct (find (lit "tbody") table) as [tbody|] eqn:Etb; [|exact Hrest].
  destruct (find_all (lit "tr") tbody) as [|first_row rows] eqn:Erows; [exact Hrest|].
  destruct (find_all (lit "td") first_row) as [|cell cells] eqn:Ecells; [exact Hrest|].
  intros [= <-]. exists table, first_row, rows, cell, cells.
  repeat split; trivial. now left.
Qed.

Lemma find_tbody_located W soup t :
  find_tbody W soup = Some t ->
  is_tag (lit "tbody") t = true /\ In t (descendants soup).
Proof.
  unfold find_tbody, or_else, tbody_by_selector.
  destruct (select_one_bd_list (unicode W) soup) as [t1|] eqn:E1.
  { intros [= <-]. now apply (select_one_sound W). }
  destruct (tbody_by_steps W soup) as [t2|] eqn:E2.
  { intros [= <-]. unfold tbody_by_steps in E2.
    destruct (find_id (lit "subContent") soup) as [sub|] eqn:Es; [|discriminate].
    destruct (find (lit "div") sub) as [div|] eqn:Ed; [|discriminate].
    destruct (find_class (unicode W) (lit "div") (lit "BD_list") div) as [bd|] eqn:Eb; [|discriminate].
    destruct (find (lit "table") bd) as [table|] eqn:Et; [|discriminate].
    apply find_by_sound in Es, Ed, Eb, Et.
    apply (table_tbody_sound soup table t2); trivial.
    apply (descendants_trans soup table bd); [tauto|].
    apply (descendants_trans soup bd div); [tauto|].
    apply (descendants_trans soup div sub); tauto. }
  destruct (tbody_by_class W soup) as [t3|] eqn:E3.
  { intros [= <-]. unfold tbody_by_class in E3.
    destruct (find_class (unicode W) (lit "div") (lit "BD_list") soup) as [bd|] eqn:Eb; [|discriminate].
    destruct (find (lit "table") bd) as [table|] eqn:Et; [|discriminate].
    apply find_by_sound in Eb, Et.
    apply (table_tbody_sound soup table t3); trivial.
    apply (descendants_trans soup table bd); tauto. }
  intro H. apply tbody_by_scan_sound in H.
  destruct H as [table [fr [rs [c [cs [Hin [Htb _]]]]]]].
  apply (table_tbody_sound soup table t); trivial.
  unfold find_all, find_all_by in Hin. apply filter_In in Hin. tauto.
Qed.

(** X4. The table body the search returns is a [tbody] element of the
    document, whichever method found it: one of those [find_all] lists. *)
Theorem find_tbody_sound W soup t :
  find_tbody W soup = Some t ->
  is_tag (lit "tbody") t = true
  /\ In t (descendants soup)
  /\ In t (find_all (lit "tbody") soup).
Proof.
  intro H. apply find_tbody_located in H. destruct H as [Ht Hin].
  repeat split; trivial.
  unfold find_all, find_all_by. apply filter_In. now split.
Qed.

Lemma find_tbody_sound_witness :
  is_tag (lit "tbody") (Sample.el "tbody" [Sample.header_row]) = true
  /\ In (Sample.el "tbody" [Sample.header_row])
        (descendants (Sample.wrap [Sample.header_row]))
  /\ In (Sample.el "tbody" [Sample.header_row])
        (find_all (lit "tbody") (Sample.wrap [Sample.header_row])).
Proof.
  apply (find_tbody_sound (Sample.serving Sample.listing)
           (Sample.wrap [Sample.header_row])).
  vm_compute. reflexivity.
Defined.

(** X5. When the three methods tied to the site template find nothing, a body
    is accepted only from a table whose first body has a first row with a
    [td] cell. *)
Theorem find_tbody_last_resort W soup t :
  tbody_by_selector W soup = None ->
  tbody_by_steps W soup = None ->
  tbody_by_class W soup = None ->
  find_tbody W soup = Some t ->
  exists table first_row rows cell cells,
    In table (find_all (lit "table") soup)
    /\ find (lit "tbody") table = Some t
    /\ find_all (lit "tr") t = first_row :: rows
    /\ find_all (lit "td") first_row = cell :: cells.
Proof.
  unfold find_tbody, or_else. intros -> -> ->. apply tbody_by_scan_sound.
Qed.

Lemma find_tbody_last_resort_witness :
  exists table first_row rows cell cells,
    In table (find_all (lit "table")
                (Sample.el "body" [Sample.el "table" [Sample.el "tbody" [Sample.data_row]]]))
    /\ find (lit "tbody") table = Some (Sample.el "tbody" [Sample.data_row])
    /\ find_all (lit "tr") (Sample.el "tbody" [Sample.data_row]) = first_row :: rows
    /\ find_all (lit "td") first_row = cell :: cells.
Proof.
  apply (find_tbody_last_resort (Sample.serving Sample.listing)
           (Sample.el "body" [Sample.el "table" [Sample.el "tbody" [Sample.data_row]]])).
  - vm_compute. reflexivity.
  - vm_compute. reflexivity.
  - vm_compute. reflexivity.
  - vm_compute. reflexivity.
Defined.

(** X6. A document without a [tbody] element has no table body for the
    search: the call, once the page is fetched and parsed, returns the
    failure envelope, with the table-not-found text, or with the parse
    error text when [prettify] raises. *)
Theorem no_tbody_no_table W page_url site_name l response soup :
  requests_get W page_url = Ok response ->
  html_parser W response = Ok soup ->
  find_all (lit "tbody") soup = [] ->
  find_tbody W soup = None
  /\ exists env l',
       crawl_school_letters W page_url site_name l = (Ok env, l')
       /\ letters env = []
       /\ total_count (meta env) = 0
       /\ (error (meta env) = Some table_not_found_msg
           \/ exists e, prettify W soup = Raise e
                        /\ error (meta env) = Some (parse_error_msg e)).
Proof.
  intros Hget Hparse Hnone.
  assert (Htb : find_tbody W soup = None).
  { destruct (find_tbody W soup) as [t|] eqn:E; trivial.
    apply find_tbody_located in E. destruct E as [Ht Hin].
    assert (Hf : In t (find_all (lit "tbody") soup)).
    { unfold find_all, find_all_by. apply filter_In. tauto. }
    rewrite Hnone in Hf. contradiction. }
  split; trivial.
  destruct (crawl_returns W page_url site_name l) as [env [l' E]].
  { intros e He. congruence. }
  exists env, l'. split; trivial.
  apply crawl_outcome in E.
  destruct E as [e Hget' Hkind | response' e Hget' Hparse'
                 | response' soup' msg Hget' Hparse' Htb' Hmsg
                 | response' soup' tbody' Hget' Hparse' Htb'];
    try congruence.
  assert (response' = response) by congruence. subst.
  assert (soup' = soup) by congruence. subst.
  repeat split.
  destruct Hmsg as [-> | [e [He ->]]]; [now left | right; eauto].
Qed.

Lemma no_tbody_no_table_witness :
  find_tbody (Sample.serving (Sample.el "table" [Sample.data_row]))
    (Sample.el "table" [Sample.data_row]) = None
  /\ exists env l',
       crawl_school_letters (Sample.serving (Sample.el "table" [Sample.data_row]))
         Sample.page_url None [] = (Ok env, l')
       /\ letters env = []
       /\ total_count (meta env) = 0
       /\ (error (meta env) = Some table_not_found_msg
           \/ exists e,
                prettify (Sample.serving (Sample.el "table" [Sample.data_row]))
                  (Sample.el "table" [Sample.data_row]) = Raise e
                /\ error (meta env) = Some (parse_error_msg e)).
Proof.
  apply (no_tbody_no_table
           (Sample.serving (Sample.el "table" [Sample.data_row]))
           Sample.page_url None [] (lit "<html>")
           (Sample.el "table" [Sample.data_row])).
  - reflexivity.
  - reflexivity.
  - vm_compute. reflexivity.
Defined.

End TableLocation.

(* ================================================================== *)
(** ** Which rows are emitted *)

Section RowFacts.
Import Str Re Html Py.

(** Every record of a returned envelope is the record of a row of the
    located table body. *)
Lemma letters_from_rows W page_url site_name l env l' r :
  crawl_school_letters W page_url site_name l = (Ok env, l') ->
  In r (letters env) ->
  exists row, row_record W page_url row = Some r.
Proof.
  intros E Hin. apply crawl_outcome in E.
  destruct E as [e Hget Hkind | response e Hget Hparse
                 | response soup msg Hget Hparse Htb Hmsg
                 | response soup tbody Hget Hparse Htb];
    try contradiction.
  cbn in Hin. apply in_emitted in Hin. destruct Hin as [row [_ Hr]]. eauto.
Qed.

(** X7. A row gives a record exactly when it has no [th] cell, has at least
    four [td] cells, its first cell is not a marker of a pinned row, and
    making its link absolute does not raise; the record is then that of
    the row with the link obtained. *)
Theorem row_emitted_iff W page_url row r :
  row_record W page_url row = Some r <->
  find (lit "th") row = None
  /\ 4 <= List.length (find_all (lit "td") row)
  /\ (exists number_cell rest,
        find_all (lit "td") row = number_cell :: rest
        /\ is_marker (cell_text W number_cell) = false)
  /\ exists u,
       absolutized W page_url (resolved_link W row (find_all (lit "td") row)) = Ok u
       /\ r = record_of W row (find_all (lit "td") row) u.
Proof.
  split.
  - intro H. now apply row_record_inv in H.
  - intros [Hth [Hlen [Hm [u [Ha ->]]]]]. now apply row_record_intro.
Qed.

(** X8. A data row whose link is empty or begins with the letters http is
    never lost: [urljoin] is not called for it, and the record carries the
    link unchanged. *)
Theorem row_without_join_emitted W page_url row :
  find (lit "th") row = None ->
  4 <= List.length (find_all (lit "td") row) ->
  (exists number_cell rest,
     find_all (lit "td") row = number_cell :: rest
     /\ is_marker (cell_text W number_cell) = false) ->
  resolved_link W row (find_all (lit "td") row) = []
  \/ startswith (lit "http") (resolved_link W row (find_all (lit "td") row)) = true ->
  row_record W page_url row
  = Some (record_of W row (find_all (lit "td") row)
            (resolved_link W row (find_all (lit "td") row))).
Proof.
  intros Hth Hlen Hm Hlink. apply row_record_intro; trivial.
  apply absolutized_kept. destruct Hlink as [-> | ->]; [now left | now right].
Qed.

Lemma row_without_join_emitted_witness :
  row_record (Sample.serving Sample.listing) Sample.page_url Sample.undated_row
  = Some (record_of (Sample.serving Sample.listing) Sample.undated_row
            (find_all (lit "td") Sample.undated_row)
            (resolved_link (Sample.serving Sample.listing) Sample.undated_row
               (find_all (lit "td") Sample.undated_row))).
Proof.
  apply (row_without_join_emitted (Sample.serving Sample.listing)
           Sample.page_url Sample.undated_row).
  - vm_compute. reflexivity.
  - vm_compute. lia.
  - exists (Sample.td "4"),
           [Sample.td " No date "; Sample.td "author"; Sample.td "-"].
    split; vm_compute; reflexivity.
  - left. vm_compute. reflexivity.
Defined.

(** X9. A data row whose link cannot be joined to the page URL gives no
    record and exactly one [ERROR] record, with the text of the
    exception; the turn itself returns, so the loop goes on. *)
Theorem row_join_failure_logged W page_url row l e :
  find (lit "th") row = None ->
  4 <= List.length (find_all (lit "td") row) ->
  (exists number_cell rest,
     find_all (lit "td") row = number_cell :: rest
     /\ is_marker (cell_text W number_cell) = false) ->
  resolved_link W row (find_all (lit "td") row) <> [] ->
  startswith (lit "http") (resolved_link W row (find_all (lit "td") row)) = false ->
  urljoin W page_url (resolved_link W row (find_all (lit "td") row)) = Raise e ->
  row_step W page_url row l
  = (Ok None, l ++ [error_record (RowParseError (exn_str e))]).
Proof.
  intros Hth Hlen [c0 [rest [Hcells Hm]]] Hne Hhttp Hjoin.
  rewrite row_step_eval. cbn zeta. rewrite Hth.
  assert (Ha : absolutized W page_url (resolved_link W row (find_all (lit "td") row))
               = Raise e).
  { rewrite absolutized_relative; trivial.
    destruct (resolved_link W row (find_all (lit "td") row));
      [congruence | reflexivity]. }
  destruct (find_all (lit "td") row) as [|c0' [|c1 [|c2 [|c3 rest']]]] eqn:Ec;
    cbn in Hlen; try lia.
  injection Hcells as -> _. rewrite Hm, Ha. reflexivity.
Qed.

Lemma row_join_failure_logged_witness :
  row_step (Sample.serving Sample.listing) Sample.page_url Sample.broken_row []
  = (Ok None, [] ++ [error_record (RowParseError (lit "Invalid IPv6 URL"))]).
Proof.
  apply (row_join_failure_logged (Sample.serving Sample.listing)
           Sample.page_url Sample.broken_row []
           (mk_exn OtherException (lit "Invalid IPv6 URL"))).
  - vm_compute. reflexivity.
  - vm_compute. lia.
  - exists (Sample.td "2"),
           [Sample.el "td"
              [Sample.el_with "a" [("href", "//[bad")]%string
                 [Sample.txt "Broken"]];
            Sample.td "author"; Sample.td "2024.01.11"].
    split; vm_compute; reflexivity.
  - vm_compute. discriminate.
  - vm_compute. reflexivity.
  - vm_compute. reflexivity.
Defined.

Lemma find_some_iff t cell :
  (exists x, find t cell = Some x)
  <-> exists x, In x (descendants cell) /\ is_tag t x = true.
Proof.
  split.
  - intros [x H]. apply find_by_sound in H. exists x. tauto.
  - intros [x [Hin Ht]].
    destruct (find t cell) as [y|] eqn:E; [eauto|].
    rewrite (find_by_none _ _ E x Hin) in Ht. discriminate.
Qed.

(** X10. The attachment flag of a record is set exactly when some [td] cell of
    its row holds an [img] element, at any depth. *)
Theorem has_attachment_iff W page_url row r :
  row_record W page_url row = Some r ->
  (has_attachment r = true
   <-> exists cell, In cell (find_all (lit "td") row) /\ holds_image cell).
Proof.
  intro Hr. apply row_record_inv in Hr. cbn zeta in Hr.
  destruct Hr as [_ [_ [_ [u [_ ->]]]]].
  cbn [has_attachment record_of]. rewrite existsb_exists.
  split; intros [cell [Hin H]]; exists cell; split; trivial.
  - destruct (find (lit "img") cell) as [img|] eqn:E; [|discriminate].
    apply (find_some_iff (lit "img") cell). eauto.
  - apply (find_some_iff (lit "img") cell) in H. destruct H as [img ->]. reflexivity.
Qed.

Lemma has_attachment_iff_witness :
  has_attachment Sample.notice_a = true
  <-> exists cell, In cell (find_all (lit "td") Sample.data_row) /\ holds_image cell.
Proof.
  apply (has_attachment_iff (Sample.serving Sample.listing) Sample.page_url
           Sample.data_row Sample.notice_a).
  vm_compute. reflexivity.
Defined.

(** X11. Every emitted row has a title cell. With an anchor in it the title is
    the anchor's text; without one the title is the text of the cell and
    the [url] is empty. *)
Theorem title_of_record W page_url row r :
  row_record W page_url row = Some r ->
  exists title_cell,
    title_cell_of W row (find_all (lit "td") row) = Some title_cell
    /\ match find (lit "a") title_cell with
       | Some title_link => title r = cell_text W title_link
       | None => title r = cell_text W title_cell /\ url r = []
       end.
Proof.
  intro Hr. apply row_record_inv in Hr. cbn zeta in Hr.
  destruct Hr as [_ [Hlen [_ [u [Ha ->]]]]].
  cbn [title url record_of]. unfold row_title, title_cell_of in *.
  unfold resolved_link in Ha.
  destruct (nth_error (find_all (lit "td") row) 1) as [c1|] eqn:E1.
  2:{ apply nth_error_None in E1. lia. }
  destruct (find_class (unicode W) (lit "td") (lit "ta_l") row) as [tc|].
  - exists tc. split; trivial.
    destruct (find (lit "a") tc); [reflexivity|].
    split; trivial. cbn in Ha. now injection Ha as <-.
  - exists c1. split; trivial.
    destruct (find (lit "a") c1); [reflexivity|].
    split; trivial. cbn in Ha. now injection Ha as <-.
Qed.

Lemma title_of_record_witness :
  exists title_cell,
    title_cell_of (Sample.serving Sample.listing) Sample.undated_row
      (find_all (lit "td") Sample.undated_row)
    = Some title_cell
    /\ match find (lit "a") title_cell with
       | Some title_link =>
           title Sample.undated
           = cell_text (Sample.serving Sample.listing) title_link
       | None =>
           title Sample.undated
           = cell_text (Sample.serving Sample.listing) title_cell
           /\ url Sample.undated = []
       end.
Proof.
  apply (title_of_record (Sample.serving Sample.listing) Sample.page_url
           Sample.undated_row Sample.undated).
  vm_compute. reflexivity.
Defined.

(** X12. In every returned envelope every record has an empty [author] and the
    [views] text ["0"]. *)
Theorem reserved_fields W page_url site_name l env l' :
  crawl_school_letters W page_url site_name l = (Ok env, l') ->
  forall r, In r (letters env) -> author r = [] /\ views r = lit "0".
Proof.
  intros E r Hin.
  destruct (letters_from_rows _ _ _ _ _ _ _ E Hin) as [row Hr].
  apply row_record_inv in Hr. cbn zeta in Hr.
  destruct Hr as [_ [_ [_ [u [_ ->]]]]]. split; reflexivity.
Qed.

Lemma reserved_fields_witness :
  author Sample.notice_a = [] /\ views Sample.notice_a = lit "0".
Proof.
  apply (reserved_fields (Sample.serving Sample.listing) Sample.page_url
           None [] Sample.listing_envelope Sample.listing_log).
  - vm_compute. reflexivity.
  - left. reflexivity.
Defined.

End RowFacts.

(* ================================================================== *)
(** ** The texts of a record *)

Section TextFacts.
Import Str Re Html Py.

Lemma lstrip_head_ok U s : head_ok U (lstrip U s).
Proof.
  induction s as [|c s IH]; cbn [lstrip head_ok]; trivial.
  destruct (is_space U c) eqn:E; [exact IH | exact E].
Qed.

Lemma lstrip_fixed U s : head_ok U s -> lstrip U s = s.
Proof. destruct s as [|c s]; cbn [lstrip head_ok]; trivial. now intros ->. Qed.

Lemma rstrip_idem U s : rstrip U (rstrip U s) = rstrip U s.
Proof.
  induction s as [|c s IH]; cbn [rstrip]; trivial.
  destruct (rstrip U s) as [|a r] eqn:E.
  - destruct (is_space U c) eqn:Ec; cbn [rstrip]; trivial. now rewrite Ec.
  - cbn [rstrip] in IH |- *. fold (rstrip U (a :: r)). now rewrite IH.
Qed.

Lemma rstrip_head_ok U s : head_ok U s -> head_ok U (rstrip U s).
Proof.
  destruct s as [|c s]; cbn [rstrip head_ok]; trivial.
  intro Hc. destruct (rstrip U s); [now rewrite Hc | exact Hc].
Qed.

Lemma rstrip_app U x y :
  rstrip U y <> [] -> rstrip U (x ++ y) = x ++ rstrip U y.
Proof.
  intro Hy. induction x as [|c x IH]; cbn [app rstrip]; trivial.
  rewrite IH. destruct (x ++ rstrip U y) eqn:E; trivial.
  destruct x; cbn in E; congruence.
Qed.

(** Joining a non-empty stripped text with a stripped text gives a
    stripped text. *)
Lemma stripped_app U x y :
  x <> [] ->
  head_ok U x -> rstrip U x = x -> head_ok U y -> rstrip U y = y ->
  head_ok U (x ++ y) /\ rstrip U (x ++ y) = x ++ y.
Proof.
  intros Hne Hx Rx Hy Ry. split.
  - destruct x; [congruence | exact Hx].
  - destruct y as [|c y].
    + now rewrite app_nil_r.
    + rewrite rstrip_app; rewrite Ry; [reflexivity | discriminate].
Qed.

Lemma stripped_concat U pieces :
  Forall (fun s => s <> [] /\ head_ok U s /\ rstrip U s = s) pieces ->
  head_ok U (concat pieces) /\ rstrip U (concat pieces) = concat pieces.
Proof.
  induction 1 as [|x rest [Hne [Hx Rx]] Hrest IH]; cbn [concat].
  - split; reflexivity.
  - apply stripped_app; tauto.
Qed.

(** The text read from a node neither begins nor ends with whitespace. *)
Lemma get_text_strip_stripped U n :
  strip U (get_text_strip U n) = get_text_strip U n.
Proof.
  unfold get_text_strip.
  match goal with |- strip U (concat ?L) = _ => set (pieces := L) end.
  assert (H : Forall (fun s => s <> [] /\ head_ok U s /\ rstrip U s = s) pieces).
  { apply Forall_forall. intros s Hs. unfold pieces in Hs.
    apply filter_In in Hs. destruct Hs as [Hs Ht].
    apply in_flat_map in Hs. destruct Hs as [d [_ Hd]].
    destruct d as [t|]; [|contradiction]. destruct Hd as [<-|[]].
    repeat split.
    - destruct (strip U t); [discriminate | discriminate].
    - unfold strip. apply rstrip_head_ok, lstrip_head_ok.
    - unfold strip. apply rstrip_idem. }
  apply stripped_concat in H. destruct H as [Hh Hr].
  unfold strip. rewrite (lstrip_fixed _ _ Hh). exact Hr.
Qed.

(** X13. In every returned envelope the [number] and the [title] of every
    record neither begin nor end with whitespace: [str.strip] leaves them
    as they are, whatever the characters are that the Unicode database
    counts as whitespace. *)
Theorem number_and_title_stripped W page_url site_name l env l' :
  crawl_school_letters W page_url site_name l = (Ok env, l') ->
  forall r, In r (letters env) ->
            strip (unicode W) (number r) = number r
            /\ strip (unicode W) (title r) = title r.
Proof.
  intros E r Hin.
  destruct (letters_from_rows _ _ _ _ _ _ _ E Hin) as [row Hr].
  apply row_record_inv in Hr. cbn zeta in Hr.
  destruct Hr as [_ [_ [[c0 [rest [Hcells _]]] [u [_ ->]]]]].
  cbn [number title record_of]. rewrite Hcells. split.
  - apply get_text_strip_stripped.
  - unfold row_title.
    destruct (title_cell_of W row (c0 :: rest)) as [tc|]; [|reflexivity].
    destruct (find (lit "a") tc); apply get_text_strip_stripped.
Qed.

Lemma number_and_title_stripped_witness :
  strip (unicode (Sample.serving Sample.listing)) (number Sample.undated)
  = number Sample.undated
  /\ strip (unicode (Sample.serving Sample.listing)) (title Sample.undated)
     = title Sample.undated.
Proof.
  apply (number_and_title_stripped (Sample.serving Sample.listing)
           Sample.page_url None [] Sample.listing_envelope Sample.listing_log).
  - vm_compute. reflexivity.
  - right. left. reflexivity.
Defined.

(** *** Date tokens *)

Lemma dashed_nonempty U s : is_dashed_date U s = true -> s <> [].
Proof. destruct s; [discriminate | discriminate]. Qed.

(** X14. The [date] of a record is empty exactly when no [td] cell of its
    row holds, anywhere in its text, a token of the shape
    [digit{4}.digit{2}.digit{2}], a digit being any character that [\d]
    matches. *)
Theorem date_empty_iff W page_url row r :
  row_record W page_url row = Some r ->
  (date r = []
   <-> forall cell, In cell (find_all (lit "td") row) ->
                    ~ holds_token (unicode W) (cell_text W cell)).
Proof.
  intro Hr. apply row_record_inv in Hr. cbn zeta in Hr.
  destruct Hr as [_ [_ [_ [u [_ ->]]]]].
  cbn [date record_of].
  set (cells := find_all (lit "td") row).
  assert (Hnone : (forall cell, In cell cells ->
                     ~ holds_token (unicode W) (cell_text W cell))
                  <-> first_date W cells = None).
  { rewrite first_date_none_iff. split; intros H c Hc.
    - apply (search_date_none_iff W). now apply H.
    - apply (search_date_none_iff W). now apply H. }
  rewrite Hnone. split.
  - intro Hd. destruct (first_date W cells) as [d|] eqn:Ef; trivial.
    exfalso.
    assert (Htok : exists s tok, search_date (unicode W) s = Some tok
                                 /\ date_text_of W cells = tok).
    { unfold date_text_of. rewrite Ef.
      destruct (first_date_token _ _ _ Ef) as [c [_ Hc]].
      destruct (nth_error cells 3) as [c3|]; [|eauto].
      destruct (search_date (unicode W) (cell_text W c3)) eqn:E3; eauto. }
    destruct Htok as [s [tok [Hs Heq]]]. rewrite Heq in Hd.
    rewrite (format_date_token _ _ _ Hs) in Hd.
    apply search_date_shape in Hs. destruct Hs as [_ Hs].
    now apply dashed_nonempty in Hs.
  - intro Hf. unfold date_text_of. rewrite Hf.
    destruct (nth_error cells 3) as [c3|] eqn:E3; [|reflexivity].
    apply nth_error_In in E3.
    rewrite first_date_none_iff in Hf. now rewrite (Hf c3 E3).
Qed.

Lemma date_empty_iff_witness :
  date Sample.undated = []
  <-> forall cell, In cell (find_all (lit "td") Sample.undated_row) ->
                   ~ holds_token (unicode (Sample.serving Sample.listing))
                       (cell_text (Sample.serving Sample.listing) cell).
Proof.
  apply (date_empty_iff (Sample.serving Sample.listing) Sample.page_url
           Sample.undated_row Sample.undated).
  vm_compute. reflexivity.
Defined.

(** *** The content identifier *)

Lemma span_digits_split U s :
  s = fst (span_digits U s) ++ snd (span_digits U s)
  /\ digits_only U (fst (span_digits U s)) = true.
Proof.
  induction s as [|c s [IH1 IH2]]; cbn [span_digits].
  - split; reflexivity.
  - destruct (is_digit U c) eqn:E.
    + destruct (span_digits U s) as [d r]. cbn [fst snd app] in *. split.
      * now rewrite <- IH1.
      * unfold digits_only in *. cbn [forallb]. now rewrite E.
    + split; reflexivity.
Qed.

Lemma match_quoted_digits_sound U s d :
  match_quoted_digits U s = Some d ->
  d <> [] /\ digits_only U d = true
  /\ exists q q' post,
       s = q :: (d ++ q' :: post)
       /\ is_quote q = true /\ is_quote q' = true.
Proof.
  unfold match_quoted_digits.
  destruct s as [|q s]; [discriminate|].
  destruct (is_quote q) eqn:Eq; [|discriminate].
  pose proof (span_digits_split U s) as [Hs Hd].
  destruct (span_digits U s) as [[|c ds] [|q' post]]; try discriminate.
  destruct (is_quote q') eqn:Eq'; [|discriminate].
  intros [= <-]. cbn [fst snd] in *.
  repeat split; [discriminate | exact Hd |].
  exists q, q', post. repeat split; trivial. now rewrite Hs at 1.
Qed.

(** X15. The identifier recovered from [onclick] is a non-empty run of
    digits, a digit being any character that [\d] matches, and it stands
    in the attribute between two quote characters, single or double, not
    necessarily the same. *)
Theorem quoted_digits_sound U onclick ntt_sn :
  search_quoted_digits U onclick = Some ntt_sn ->
  ntt_sn <> [] /\ digits_only U ntt_sn = true
  /\ exists pre q q' post,
       onclick = pre ++ q :: (ntt_sn ++ q' :: post)
       /\ is_quote q = true /\ is_quote q' = true.
Proof.
  induction onclick as [|c s IH]; cbn [search_quoted_digits].
  - cbn. discriminate.
  - destruct (match_quoted_digits U (c :: s)) eqn:E.
    + intros [= <-]. apply match_quoted_digits_sound in E.
      destruct E as [Hne [Hd [q [q' [post [Hs [Hq Hq']]]]]]].
      repeat split; trivial. exists [], q, q', post. now repeat split.
    + intro H. destruct (IH H) as [Hne [Hd [pre [q [q' [post [Hs [Hq Hq']]]]]]]].
      repeat split; trivial.
      exists (c :: pre), q, q', post. cbn [app]. now rewrite <- Hs.
Qed.

Lemma quoted_digits_sound_witness :
  lit "１２３" <> [] /\ digits_only Sample.database (lit "１２３") = true
  /\ exists pre q q' post,
       lit "fn_view('１２３')" = pre ++ q :: (lit "１２３" ++ q' :: post)
       /\ is_quote q = true /\ is_quote q' = true.
Proof.
  apply (quoted_digits_sound Sample.database (lit "fn_view('１２３')")
           (lit "１２３")).
  vm_compute. reflexivity.
Defined.

End TextFacts.

(* ================================================================== *)
(* ================================================================== *)
(** ** What the call writes to the log *)

Section LogFacts.
Import Str Re Html Py.
Local Open Scope py_scope.

(** The loop over the rows, with what it writes. *)
Lemma for_rows_log W page_url rows : forall acc l,
  for_rows W page_url rows acc l
  = (Ok (acc ++ emitted W page_url rows),
     l ++ flat_map (row_log W page_url) rows).
Proof.
  induction rows as [|row rest IH]; intros acc l; cbn [for_rows flat_map].
  - unfold ret, emitted. cbn. now rewrite !app_nil_r.
  - unfold bind at 1. rewrite row_step_returns. fold (row_log W page_url row).
    rewrite IH. unfold emitted. cbn [flat_map].
    destruct (row_record W page_url row) as [r|]; cbn [app].
    + now rewrite <- !app_assoc.
    + now rewrite <- app_assoc.
Qed.

Lemma truthy_format_date W s : truthy (format_date W s) = truthy s.
Proof.
  unfold format_date. destruct (match_date (unicode W) s); trivial.
  now destruct s.
Qed.

(** X17. What a turn of the row loop gives and writes, row by row. A row
    that is passed over (a [th] cell, fewer than four [td] cells, or a
    marker of a pinned row in the first cell) gives no record and writes
    nothing. Any other row, when its link is made absolute, gives its
    record and writes nothing if the record has a date, the warning with
    the texts of its cells if it has none; when making the link absolute
    raises, it gives no record and writes one [ERROR] record with the
    text of the exception. So a turn writes at most one record. *)
Theorem row_log_cases W page_url row :
  if passed_over W row
  then row_record W page_url row = None /\ row_log W page_url row = []
  else
    match absolutized W page_url
            (resolved_link W row (find_all (lit "td") row)) with
    | Ok u =>
        row_record W page_url row
        = Some (record_of W row (find_all (lit "td") row) u)
        /\ row_log W page_url row
           = (if truthy (date (record_of W row (find_all (lit "td") row) u))
              then []
              else [date_warning W (find_all (lit "td") row)])
    | Raise e =>
        row_record W page_url row = None
        /\ row_log W page_url row
           = [error_record (RowParseError (exn_str e))]
    end.
Proof.
  unfold passed_over, row_record, row_log, written, run.
  rewrite row_step_eval. cbn zeta.
  destruct (find (lit "th") row); [now split|].
  destruct (find_all (lit "td") row) as [|c0 [|c1 [|c2 [|c3 rest]]]];
    try (now split).
  cbn [List.length Nat.ltb Nat.leb orb].
  destruct (is_marker (cell_text W c0)); [now split|].
  destruct (absolutized W page_url _) as [u|e]; cbn [fst snd app].
  - cbn [date record_of]. rewrite truthy_format_date. now split.
  - now split.
Qed.

Lemma crawl_fetch_raise W url site_name l e :
  requests_get W url = Raise e ->
  crawl_school_letters W url site_name l
  = if except_RequestException (exn_kind e)
    then (Ok (failure W (resolve_site_name url site_name) url (exn_str e)),
          l ++ [start_record (resolve_site_name url site_name);
                error_record (RequestError (exn_str e))])
    else (Raise e, l ++ [start_record (resolve_site_name url site_name)]).
Proof.
  intro Hget. unfold crawl_school_letters.
  unfold bind, try_except, lift, logging, ret. cbn.
  rewrite Hget. destruct (except_RequestException (exn_kind e)); cbn.
  - now rewrite <- app_assoc.
  - reflexivity.
Qed.

(** X18. A request exception ends the call with the failure envelope that
    carries its text; the log gets the start record and one [ERROR]
    record. The parser is not consulted. *)
Theorem fetch_failure_exact W url site_name l e :
  requests_get W url = Raise e ->
  exn_kind e = RequestException ->
  crawl_school_letters W url site_name l
  = (Ok (failure W (resolve_site_name url site_name) url (exn_str e)),
     l ++ [start_record (resolve_site_name url site_name);
           error_record (RequestError (exn_str e))]).
Proof.
  intros Hget Hkind. unfold crawl_school_letters.
  unfold bind, try_except, lift, logging, ret. cbn.
  rewrite Hget, Hkind. cbn. now rewrite <- app_assoc.
Qed.

Lemma fetch_failure_exact_witness :
  crawl_school_letters (Sample.failing Sample.connection_error)
    Sample.page_url None []
  = (Ok (failure (Sample.failing Sample.connection_error)
           (resolve_site_name Sample.page_url None) Sample.page_url
           (exn_str Sample.connection_error)),
     [] ++ [start_record (resolve_site_name Sample.page_url None);
            error_record (RequestError (exn_str Sample.connection_error))]).
Proof.
  apply (fetch_failure_exact (Sample.failing Sample.connection_error)
           Sample.page_url None [] Sample.connection_error).
  - reflexivity.
  - reflexivity.
Defined.

(** X19. An exception of the HTTP client outside the request family leaves
    the call as it is, after the start record alone was written: no
    [ERROR] record tells of it. *)
Theorem fetch_unhandled_exact W url site_name l e :
  requests_get W url = Raise e ->
  exn_kind e = OtherException ->
  crawl_school_letters W url site_name l
  = (Raise e, l ++ [start_record (resolve_site_name url site_name)]).
Proof.
  intros Hget Hkind. unfold crawl_school_letters.
  unfold bind, try_except, lift, logging, ret. cbn.
  rewrite Hget, Hkind. reflexivity.
Qed.

Lemma fetch_unhandled_exact_witness :
  crawl_school_letters (Sample.failing Sample.location_parse_error)
    Sample.page_url None []
  = (Raise Sample.location_parse_error,
     [] ++ [start_record (resolve_site_name Sample.page_url None)]).
Proof.
  apply (fetch_unhandled_exact (Sample.failing Sample.location_parse_error)
           Sample.page_url None [] Sample.location_parse_error).
  - reflexivity.
  - reflexivity.
Defined.

(** The second [try] with its handler, by what the parser, the search and
    [prettify] answered. *)
Lemma parsed_exact W url site_name response l :
  try_except except_Exception
    (parse_and_extract W url site_name response)
    (fun e =>
       logging ERROR (HtmlParseError (exn_str e)) ;;;
       ret (inl (failure W site_name url (parse_error_msg e)))) l
  = match html_parser W response with
    | Raise e =>
        (Ok (inl (failure W site_name url (parse_error_msg e))),
         l ++ [error_record (HtmlParseError (exn_str e))])
    | Ok soup =>
        match find_tbody W soup with
        | Some tbody =>
            (Ok (inr (emitted W url (find_all (lit "tr") tbody))),
             l ++ flat_map (row_log W url) (find_all (lit "tr") tbody)
               ++ [done_record
                     (List.length (emitted W url (find_all (lit "tr") tbody)))])
        | None =>
            match prettify W soup with
            | Raise e =>
                (Ok (inl (failure W site_name url (parse_error_msg e))),
                 l ++ [error_record (HtmlParseError (exn_str e))])
            | Ok pretty =>
                (Ok (inl (failure W site_name url table_not_found_msg)),
                 l ++ [error_record (TableNotFound (firstn 5000 pretty))])
            end
        end
    end.
Proof.
  unfold try_except, parse_and_extract.
  unfold bind at 1. unfold lift at 1.
  destruct (html_parser W response) as [soup|e]; [|reflexivity].
  destruct (find_tbody W soup) as [tbody|].
  - unfold bind at 1. rewrite for_rows_log. cbn [app].
    unfold bind, logging, ret. cbn. now rewrite <- app_assoc.
  - unfold bind at 1. unfold lift at 1.
    destruct (prettify W soup) as [pretty|e]; reflexivity.
Qed.

Lemma crawl_after_fetch W url site_name l response :
  requests_get W url = Ok response ->
  crawl_school_letters W url site_name l
  = (parsed <-
       try_except except_Exception
         (parse_and_extract W url (resolve_site_name url site_name) response)
         (fun e =>
            logging ERROR (HtmlParseError (exn_str e)) ;;;
            ret (inl (failure W (resolve_site_name url site_name) url
                        (parse_error_msg e)))) ;;
     match parsed with
     | inl result => ret result
     | inr letters =>
         logging INFO (CrawlDone (List.length letters)) ;;;
         ret (success W (resolve_site_name url site_name) url letters)
     end) (l ++ [start_record (resolve_site_name url site_name)]).
Proof.
  intro Hget. unfold crawl_school_letters.
  unfold bind at 1. unfold logging at 1. cbn [level_no Nat.leb].
  unfold bind at 1. unfold try_except at 1. unfold bind at 1. unfold lift at 1.
  rewrite Hget. reflexivity.
Qed.

(** X20. A parser exception ends the call with the failure envelope whose
    [error] is the parse-error text; one [ERROR] record follows the start
    record. *)
Theorem parse_failure_exact W url site_name l response e :
  requests_get W url = Ok response ->
  html_parser W response = Raise e ->
  crawl_school_letters W url site_name l
  = (Ok (failure W (resolve_site_name url site_name) url (parse_error_msg e)),
     l ++ [start_record (resolve_site_name url site_name);
           error_record (HtmlParseError (exn_str e))]).
Proof.
  intros Hget Hparse. rewrite (crawl_after_fetch _ _ _ _ _ Hget).
  unfold bind at 1. rewrite parsed_exact, Hparse.
  unfold ret. now rewrite <- app_assoc.
Qed.

Lemma parse_failure_exact_witness :
  crawl_school_letters
    (Sample.unparsable (mk_exn OtherException (lit "bad markup")))
    Sample.page_url None []
  = (Ok (failure (Sample.unparsable (mk_exn OtherException (lit "bad markup")))
           (resolve_site_name Sample.page_url None) Sample.page_url
           (parse_error_msg (mk_exn OtherException (lit "bad markup")))),
     [] ++ [start_record (resolve_site_name Sample.page_url None);
            error_record (HtmlParseError (lit "bad markup"))]).
Proof.
  apply (parse_failure_exact
           (Sample.unparsable (mk_exn OtherException (lit "bad markup")))
           Sample.page_url None [] (lit "<html>")
           (mk_exn OtherException (lit "bad markup"))).
  - reflexivity.
  - reflexivity.
Defined.

(** X21. When no table body is found the call returns the failure envelope
    with the table-not-found text and logs, after the start record, one
    [ERROR] record with at most the first 5000 characters of the
    prettified document. *)
Theorem table_missing_exact W url site_name l response soup pretty :
  requests_get W url = Ok response ->
  html_parser W response = Ok soup ->
  find_tbody W soup = None ->
  prettify W soup = Ok pretty ->
  crawl_school_letters W url site_name l
  = (Ok (failure W (resolve_site_name url site_name) url table_not_found_msg),
     l ++ [start_record (resolve_site_name url site_name);
           error_record (TableNotFound (firstn 5000 pretty))])
  /\ List.length (firstn 5000 pretty) <= 5000.
Proof.
  intros Hget Hparse Htb Hpretty. split; [|apply firstn_le_length].
  rewrite (crawl_after_fetch _ _ _ _ _ Hget).
  unfold bind at 1. rewrite parsed_exact, Hparse, Htb, Hpretty.
  unfold ret. now rewrite <- app_assoc.
Qed.

Lemma table_missing_exact_witness :
  crawl_school_letters (Sample.serving (Elem (lit "[document]") [] []))
    Sample.page_url None []
  = (Ok (failure (Sample.serving (Elem (lit "[document]") [] []))
           (resolve_site_name Sample.page_url None) Sample.page_url
           table_not_found_msg),
     [] ++ [start_record (resolve_site_name Sample.page_url None);
            error_record (TableNotFound (firstn 5000 (lit "<html>")))])
  /\ List.length (firstn 5000 (lit "<html>")) <= 5000.
Proof.
  apply (table_missing_exact (Sample.serving (Elem (lit "[document]") [] []))
           Sample.page_url None [] (lit "<html>") (Elem (lit "[document]") [] []) (lit "<html>")).
  - reflexivity.
  - reflexivity.
  - vm_compute. reflexivity.
  - reflexivity.
Defined.

(** X22. When no table body is found and [prettify] raises while the
    diagnostic is prepared, the call reports a parse error instead: the
    table-not-found text is neither returned nor logged. *)
Theorem prettify_failure_exact W url site_name l response soup e :
  requests_get W url = Ok response ->
  html_parser W response = Ok soup ->
  find_tbody W soup = None ->
  prettify W soup = Raise e ->
  crawl_school_letters W url site_name l
  = (Ok (failure W (resolve_site_name url site_name) url (parse_error_msg e)),
     l ++ [start_record (resolve_site_name url site_name);
           error_record (HtmlParseError (exn_str e))]).
Proof.
  intros Hget Hparse Htb Hpretty.
  rewrite (crawl_after_fetch _ _ _ _ _ Hget).
  unfold bind at 1. rewrite parsed_exact, Hparse, Htb, Hpretty.
  unfold ret. now rewrite <- app_assoc.
Qed.

Lemma prettify_failure_exact_witness :
  crawl_school_letters
    (Sample.unprintable (Elem (lit "[document]") [] [])
       (mk_exn OtherException (lit "maximum recursion depth exceeded")))
    Sample.page_url None []
  = (Ok (failure
           (Sample.unprintable (Elem (lit "[document]") [] [])
              (mk_exn OtherException (lit "maximum recursion depth exceeded")))
           (resolve_site_name Sample.page_url None) Sample.page_url
           (parse_error_msg
              (mk_exn OtherException (lit "maximum recursion depth exceeded")))),
     [] ++ [start_record (resolve_site_name Sample.page_url None);
            error_record
              (HtmlParseError (lit "maximum recursion depth exceeded"))]).
Proof.
  apply (prettify_failure_exact
           (Sample.unprintable (Elem (lit "[document]") [] [])
              (mk_exn OtherException (lit "maximum recursion depth exceeded")))
           Sample.page_url None [] (lit "<html>") (Elem (lit "[document]") [] [])
           (mk_exn OtherException (lit "maximum recursion depth exceeded"))).
  - reflexivity.
  - reflexivity.
  - vm_compute. reflexivity.
  - reflexivity.
Defined.

(** X23. With a table body located the call returns the records of its rows
    and writes, after the start record, what each row writes, in row
    order, and then the completion record twice, with the number of
    records. *)
Theorem success_exact W url site_name l response soup tbody :
  requests_get W url = Ok response ->
  html_parser W response = Ok soup ->
  find_tbody W soup = Some tbody ->
  crawl_school_letters W url site_name l
  = (Ok (success W (resolve_site_name url site_name) url
           (emitted W url (find_all (lit "tr") tbody))),
     l ++ start_record (resolve_site_name url site_name)
       :: flat_map (row_log W url) (find_all (lit "tr") tbody)
       ++ [done_record (List.length (emitted W url (find_all (lit "tr") tbody)));
           done_record (List.length (emitted W url (find_all (lit "tr") tbody)))]).
Proof.
  intros Hget Hparse Htb.
  rewrite (crawl_after_fetch _ _ _ _ _ Hget).
  unfold bind at 1. rewrite parsed_exact, Hparse, Htb.
  unfold bind, logging, ret. cbn.
  rewrite <- !app_assoc. reflexivity.
Qed.

Lemma success_exact_witness :
  crawl_school_letters (Sample.serving Sample.listing) Sample.page_url None []
  = (Ok (success (Sample.serving Sample.listing)
           (resolve_site_name Sample.page_url None) Sample.page_url
           (emitted (Sample.serving Sample.listing) Sample.page_url
              (find_all (lit "tr")
                 (Sample.el "tbody"
                    [Sample.header_row; Sample.pinned_row; Sample.data_row;
                     Sample.broken_row; Sample.short_row; Sample.undated_row])))),
     [] ++ start_record (resolve_site_name Sample.page_url None)
       :: flat_map (row_log (Sample.serving Sample.listing) Sample.page_url)
            (find_all (lit "tr")
               (Sample.el "tbody"
                  [Sample.header_row; Sample.pinned_row; Sample.data_row;
                   Sample.broken_row; Sample.short_row; Sample.undated_row]))
       ++ [done_record
             (List.length
                (emitted (Sample.serving Sample.listing) Sample.page_url
                   (find_all (lit "tr")
                      (Sample.el "tbody"
                         [Sample.header_row; Sample.pinned_row; Sample.data_row;
                          Sample.broken_row; Sample.short_row;
                          Sample.undated_row]))));
           done_record
             (List.length
                (emitted (Sample.serving Sample.listing) Sample.page_url
                   (find_all (lit "tr")
                      (Sample.el "tbody"
                         [Sample.header_row; Sample.pinned_row; Sample.data_row;
                          Sample.broken_row; Sample.short_row;
                          Sample.undated_row]))))]).
Proof.
  apply (success_exact (Sample.serving Sample.listing) Sample.page_url None []
           (lit "<html>") Sample.listing).
  - reflexivity.
  - reflexivity.
  - vm_compute. reflexivity.
Defined.

Lemma row_log_levels W page_url row :
  Forall (fun record => rec_level record <> DEBUG) (row_log W page_url row).
Proof.
  unfold row_log, written. rewrite row_step_eval. cbn zeta.
  destruct (find (lit "th") row); [constructor|].
  destruct (find_all (lit "td") row) as [|c0 [|c1 [|c2 [|c3 rest]]]];
    try constructor.
  destruct (is_marker (cell_text W c0)); [constructor|].
  destruct (absolutized W page_url _) as [u|e]; cbn [snd app].
  - destruct (truthy (date_text_of W (c0 :: c1 :: c2 :: c3 :: rest)));
      repeat constructor; discriminate.
  - repeat constructor; discriminate.
Qed.

(** X24. The call writes no [DEBUG] record, whatever the collaborators answer:
    the record of the index at which a date was found is below the level
    of the log. *)
Theorem no_debug_record W url site_name :
  Forall (fun record => rec_level record <> DEBUG)
         (written (crawl_school_letters W url site_name)).
Proof.
  unfold written.
  destruct (requests_get W url) as [response|e] eqn:Hget.
  - rewrite (crawl_after_fetch _ _ _ _ _ Hget).
    unfold bind at 1. rewrite parsed_exact.
    destruct (html_parser W response) as [soup|e].
    + destruct (find_tbody W soup) as [tbody|].
      * unfold bind, logging, ret. cbn [snd app level_no Nat.leb].
        constructor; [discriminate|].
        rewrite <- app_assoc. apply Forall_app. split.
        -- apply Forall_flat_map, Forall_forall.
           intros row _. apply row_log_levels.
        -- repeat constructor; discriminate.
      * destruct (prettify W soup) as [pretty|e];
          unfold ret; cbn [snd app]; repeat constructor; discriminate.
    + unfold ret. cbn [snd app]. repeat constructor; discriminate.
  - rewrite (crawl_fetch_raise _ _ _ _ _ Hget).
    destruct (except_RequestException (exn_kind e)); cbn [snd app];
      repeat constructor; discriminate.
Qed.

Lemma emitted_length W page_url rows :
  List.length (emitted W page_url rows) <= List.length rows.
Proof.
  induction rows as [|row rest IH]; cbn; [lia|].
  unfold emitted in *. cbn [flat_map]. rewrite length_app.
  destruct (row_record W page_url row); cbn; lia.
Qed.

Lemma emitted_repeat W page_url row r n :
  row_record W page_url row = Some r ->
  emitted W page_url (repeat row n) = repeat r n.
Proof.
  intro Hr. unfold emitted.
  induction n as [|n IH]; cbn [repeat flat_map]; [reflexivity|].
  now rewrite Hr, IH.
Qed.

(** X25. Records are not deduplicated: when the located table body holds
    the same row [n] times over and the row gives a record, [letters]
    holds that record [n] times and [total_count] is [n]. *)
Theorem repeated_rows_kept W url site_name l response soup tbody row r n :
  requests_get W url = Ok response ->
  html_parser W response = Ok soup ->
  find_tbody W soup = Some tbody ->
  find_all (lit "tr") tbody = repeat row n ->
  row_record W url row = Some r ->
  exists env l',
    crawl_school_letters W url site_name l = (Ok env, l')
    /\ letters env = repeat r n
    /\ total_count (meta env) = n.
Proof.
  intros Hget Hparse Htb Hrows Hr.
  destruct (crawl_returns W url site_name l) as [env [l' E]].
  { intros e He. congruence. }
  exists env, l'. split; [exact E|].
  apply crawl_outcome in E.
  destruct E as [e Hget' Hkind | response' e Hget' Hparse'
                 | response' soup' msg Hget' Hparse' Htb' Hmsg
                 | response' soup' tbody' Hget' Hparse' Htb'];
    try congruence.
  assert (response' = response) by congruence. subst.
  assert (soup' = soup) by congruence. subst.
  assert (tbody' = tbody) by congruence. subst.
  unfold success. cbn [letters meta total_count].
  rewrite Hrows, (emitted_repeat W url row r n Hr).
  split; [reflexivity | apply repeat_length].
Qed.

Lemma repeated_rows_kept_witness :
  exists env l',
    crawl_school_letters
      (Sample.serving (Sample.wrap [Sample.data_row; Sample.data_row]))
      Sample.page_url None [] = (Ok env, l')
    /\ letters env = repeat Sample.notice_a 2
    /\ total_count (meta env) = 2.
Proof.
  apply (repeated_rows_kept
           (Sample.serving (Sample.wrap [Sample.data_row; Sample.data_row]))
           Sample.page_url None [] (lit "<html>")
           (Sample.wrap [Sample.data_row; Sample.data_row])
           (Sample.el "tbody" [Sample.data_row; Sample.data_row])
           Sample.data_row Sample.notice_a 2).
  - reflexivity.
  - reflexivity.
  - vm_compute. reflexivity.
  - vm_compute. reflexivity.
  - vm_compute. reflexivity.
Defined.

(** X26. With a table body located, [total_count] is at most the number of
    [tr] rows below the body, and every record stands in [letters] in the
    order of the rows. *)
Theorem total_count_bound W url site_name l env l' response soup tbody :
  crawl_school_letters W url site_name l = (Ok env, l') ->
  requests_get W url = Ok response ->
  html_parser W response = Ok soup ->
  find_tbody W soup = Some tbody ->
  total_count (meta env) <= List.length (find_all (lit "tr") tbody)
  /\ letters env = emitted W url (find_all (lit "tr") tbody).
Proof.
  intros E Hget Hparse Htb. apply crawl_outcome in E.
  destruct E as [e Hget' Hkind | response' e Hget' Hparse'
                 | response' soup' msg Hget' Hparse' Htb' Hmsg
                 | response' soup' tbody' Hget' Hparse' Htb'];
    try congruence.
  assert (response' = response) by congruence. subst.
  assert (soup' = soup) by congruence. subst.
  assert (tbody' = tbody) by congruence. subst.
  cbn. split; [apply emitted_length | reflexivity].
Qed.

Lemma total_count_bound_witness :
  total_count (meta Sample.listing_envelope)
  <= List.length
       (find_all (lit "tr")
          (Sample.el "tbody"
             [Sample.header_row; Sample.pinned_row; Sample.data_row;
              Sample.broken_row; Sample.short_row; Sample.undated_row]))
  /\ letters Sample.listing_envelope
     = emitted (Sample.serving Sample.listing) Sample.page_url
         (find_all (lit "tr")
            (Sample.el "tbody"
               [Sample.header_row; Sample.pinned_row; Sample.data_row;
                Sample.broken_row; Sample.short_row; Sample.undated_row])).
Proof.
  apply (total_count_bound (Sample.serving Sample.listing) Sample.page_url
           None [] Sample.listing_envelope Sample.listing_log
           (lit "<html>") Sample.listing).
  - vm_compute. reflexivity.
  - reflexivity.
  - reflexivity.
  - vm_compute. reflexivity.
Defined.

End LogFacts.

(* ================================================================== *)
(** ** The script entry point *)

Section EntryPoint.
Import Str Re Html Py.

(** X27. Run as a script, and provided the HTTP client raises nothing outside
    the request family, the module prints the heading and then one line
    per record of the envelope, title and date separated by a tab, in the
    order of [letters]: [total_count] lines after the heading, none when
    the call failed. The envelope's [source] is the school's name given in
    the script, not a name derived from the URL. *)
Theorem main_prints W l :
  (forall e, requests_get W test_url = Raise e ->
             exn_kind e = RequestException) ->
  exists env l',
    crawl_school_letters W test_url (Some school_name) l = (Ok env, l')
    /\ main W l = (Ok (heading :: map print_line (letters env)), l')
    /\ List.length (map print_line (letters env)) = total_count (meta env)
    /\ source (meta env) = school_name
    /\ (call_failed W test_url -> main W l = (Ok [heading], l')).
Proof.
  intro Hreq.
  destruct (crawl_returns W test_url (Some school_name) l Hreq) as [env [l' E]].
  exists env, l'.
  assert (Hmain : main W l = (Ok (heading :: map print_line (letters env)), l')).
  { unfold main, bind. rewrite E. reflexivity. }
  pose proof (crawl_outcome _ _ _ _ _ _ E) as Hout.
  repeat split; trivial.
  - rewrite length_map. destruct Hout; reflexivity.
  - destruct Hout; reflexivity.
  - intro Hf. rewrite Hmain.
    apply (call_outcome_failed _ _ _ _ Hout) in Hf. destruct Hf as [-> _].
    reflexivity.
Qed.

Lemma main_prints_witness :
  exists env l',
    crawl_school_letters (Sample.serving Sample.listing) test_url
      (Some school_name) [] = (Ok env, l')
    /\ main (Sample.serving Sample.listing) []
       = (Ok (heading :: map print_line (letters env)), l')
    /\ List.length (map print_line (letters env)) = total_count (meta env)
    /\ source (meta env) = school_name
    /\ (call_failed (Sample.serving Sample.listing) test_url ->
        main (Sample.serving Sample.listing) [] = (Ok [heading], l')).
Proof.
  apply (main_prints (Sample.serving Sample.listing) []).
  intros e H. discriminate H.
Defined.

End EntryPoint.

